(** * Commerce core of the store backend: stock ledger, cart pricing,
      checkout and order lifecycle.

    Shallow embedding of [src/models/Product.js], [src/models/Cart.js],
    [src/models/Order.js] and of [createOrder] / [cancelOrder] in
    [src/controllers/order.controller.js]; further on, of the virtuals,
    slug and rating summary of the product model and of
    [src/models/Wishlist.js] with [moveWishlistItemToCart].

    Conventions of the embedding:
    - money ([Number] fields holding prices and totals) is an exact
      rational [Q], compared with [==]; binary64 rounding is outside the
      model;
    - quantities and instants (milliseconds since the epoch) are [Z];
    - a JavaScript value that may be [undefined]/[null] is an [option];
    - ObjectIds are compared through [toString()], so an id is a [string];
    - a Mongoose document is the record of its fields, as [findOne]
      loads it: cart lines hold product ids.  [populate] is a lookup in
      the product collection restricted to the paths it selects;
    - Mongoose behaviour the code depends on is written out where it
      shows: a nested path ([coupon]) is an object even when nothing is
      set in it; a schema default ([priceAdjustment: 0]) is stored with
      the value it completes; a [Number] path does not take [NaN] and
      keeps its value; [save()] validates before it runs the pre-save
      hooks. *)

From Stdlib Require Import ZArith QArith Qround String Ascii List Bool.
From Stdlib Require Import Lia Lqa.
Import ListNotations.

Local Open Scope string_scope.
Local Open Scope Z_scope.

(** ** Product.js: inventory sub-document and the stock methods *)
Module Product.

Record Inventory := mkInventory {
  trackQuantity     : bool;   (* default true *)
  quantity          : Z;      (* default 0 *)
  lowStockThreshold : Z;      (* default 5 *)
  allowBackorders   : bool    (* default false *)
}.

Record t := mk {
  _id       : string;
  name      : string;
  price     : Q;
  image     : option string;  (* images[0]?.url *)
  inventory : Inventory
}.

Definition set_quantity (p : t) (n : Z) : t :=
  mk (_id p) (name p) (price p) (image p)
     (mkInventory (trackQuantity (inventory p)) n
                  (lowStockThreshold (inventory p))
                  (allowBackorders (inventory p))).

(** The [message] strings of [checkStock]. *)
Inductive StockMessage :=
| StockTrackingDisabled
| BackordersAllowed
| InStock
| OnlyItemsAvailable (n : Z).

Record StockCheck := mkCheck {
  available         : bool;
  message           : StockMessage;
  availableQuantity : option Z
}.

(** [productSchema.methods.checkStock] *)
Definition checkStock (p : t) (qty : Z) : StockCheck :=
  if negb (trackQuantity (inventory p)) then
    mkCheck true StockTrackingDisabled None
  else if allowBackorders (inventory p) then
    mkCheck true BackordersAllowed None
  else if quantity (inventory p) >=? qty then
    mkCheck true InStock None
  else
    mkCheck false (OnlyItemsAvailable (quantity (inventory p)))
            (Some (quantity (inventory p))).

(** Events a product document emits. *)
Inductive Event :=
| lowStock (p : t).

(** [productSchema.methods.updateStock]: the new document together with
    the events emitted on it, in order. *)
Definition updateStock (p : t) (qty : Z) (operation : string)
  : t * list Event :=
  if negb (trackQuantity (inventory p)) then (p, [])
  else
    let p' :=
      if (operation =? "decrease")%string then
        set_quantity p (Z.max 0 (quantity (inventory p) - qty))
      else if (operation =? "increase")%string then
        set_quantity p (quantity (inventory p) + qty)
      else p in
    if quantity (inventory p') <=? lowStockThreshold (inventory p')
    then (p', [lowStock p'])
    else (p', []).

(** The [products] collection and [Product.findById]. *)
Definition Collection := list t.

Fixpoint findById (db : Collection) (id : string) : option t :=
  match db with
  | [] => None
  | p :: rest => if (_id p =? id)%string then Some p else findById rest id
  end.

(** [product.save()]: the stored document with the same [_id] is replaced
    by the in-memory one. *)
Fixpoint save (db : Collection) (p : t) : Collection :=
  match db with
  | [] => []
  | p0 :: rest =>
      if (_id p0 =? _id p)%string then p :: rest else p0 :: save rest p
  end.

End Product.

(** ** Cart.js: coupon slot, cart lines and the cart document *)
Module Coupon.

Record t := mk {
  code     : string;
  discount : Q;
  type     : string   (* schema enum: 'percentage' | 'fixed' *)
}.

Definition eqb (a b : t) : bool :=
  (code a =? code b)%string && Qeq_bool (discount a) (discount b)
  && (type a =? type b)%string.

End Coupon.

Module Cart.

Local Open Scope Q_scope.

(** JavaScript [a || b] where [a] may be missing.  Every use in the source
    either has a default that equals the falsy value itself
    ([priceAdjustment || 0], [url || ""]) or reads a table whose entries
    are all truthy, so only the missing case needs the default. *)
Definition or_else {A : Type} (a : option A) (b : A) : A :=
  match a with Some x => x | None => b end.

Definition option_eqb {A : Type} (eqb : A -> A -> bool) (a b : option A)
  : bool :=
  match a, b with
  | Some x, Some y => eqb x y
  | None, None => true
  | _, _ => false
  end.

Record Variant := mkVariant {
  vname           : option string;
  vvalue          : option string;
  priceAdjustment : option Q
}.

(** [JSON.stringify(a) === JSON.stringify(b)] on two variants: the texts
    agree exactly when both are [null] or both list the same fields with
    the same values. *)
Definition variant_eqb (a b : option Variant) : bool :=
  option_eqb
    (fun x y =>
       option_eqb String.eqb (vname x) (vname y)
       && option_eqb String.eqb (vvalue x) (vvalue y)
       && option_eqb Qeq_bool (priceAdjustment x) (priceAdjustment y))
    a b.

(** What the line schema stores for the variant it is given (Cart.js
    15-22): [priceAdjustment] has the default 0, so a stored variant
    always carries one; [null] stays [null]. *)
Definition castVariant (v : option Variant) : option Variant :=
  match v with
  | Some x =>
      Some (mkVariant (vname x) (vvalue x)
              (Some (or_else (priceAdjustment x) 0)))
  | None => None
  end.

(** A stored variant: [null], or one that carries its [priceAdjustment]. *)
Definition isCast (v : option Variant) : bool :=
  match v with
  | Some x => match priceAdjustment x with Some _ => true | None => false end
  | None => true
  end.

(** A cart line. *)
Record Item := mkItem {
  product      : string;          (* ObjectId of the product *)
  quantity     : Z;
  variant      : option Variant;
  addedAt      : Z;
  lastModified : Z
}.

Definition item_eqb (a b : Item) : bool :=
  (product a =? product b)%string && (quantity a =? quantity b)%Z
  && variant_eqb (variant a) (variant b)
  && (addedAt a =? addedAt b)%Z && (lastModified a =? lastModified b)%Z.

Fixpoint items_eqb (l1 l2 : list Item) : bool :=
  match l1, l2 with
  | [], [] => true
  | a :: r1, b :: r2 => item_eqb a b && items_eqb r1 r2
  | _, _ => false
  end.

Record t := mk {
  user           : string;
  items          : list Item;
  subtotal       : Q;
  tax            : Q;
  shipping       : Q;
  discount       : option Q;        (* [None]: the path holds [undefined] *)
  total          : Q;
  coupon         : option Coupon.t; (* [None]: the nested path is empty *)
  shippingMethod : option string;
  lastActivity   : Z
}.

Definition set_items (c : t) (l : list Item) : t :=
  mk (user c) l (subtotal c) (tax c) (shipping c) (discount c) (total c)
     (coupon c) (shippingMethod c) (lastActivity c).

Definition set_coupon (c : t) (cp : option Coupon.t) : t :=
  mk (user c) (items c) (subtotal c) (tax c) (shipping c) (discount c)
     (total c) cp (shippingMethod c) (lastActivity c).

Definition set_shippingMethod (c : t) (m : option string) : t :=
  mk (user c) (items c) (subtotal c) (tax c) (shipping c) (discount c)
     (total c) (coupon c) m (lastActivity c).

Definition set_totals (c : t) (sub tx sh : Q) (di : option Q) (tot : Q)
  : t :=
  mk (user c) (items c) sub tx sh di tot (coupon c) (shippingMethod c)
     (lastActivity c).

Definition set_lastActivity (c : t) (now : Z) : t :=
  mk (user c) (items c) (subtotal c) (tax c) (shipping c) (discount c)
     (total c) (coupon c) (shippingMethod c) now.

(** [Cart.create({ user })]: the schema defaults. *)
Definition create (u : string) (now : Z) : t :=
  mk u [] 0 0 0 (Some 0) 0 None (Some "standard") now.

(** The validators of the cart schema, which [save()] runs before the
    pre-save hook: [min: 1] on the quantity of every line and the two
    [enum]s.  A document that fails them is rejected by [save()] and
    nothing of it is stored. *)
Definition validates (c : t) : bool :=
  forallb (fun it => (1 <=? quantity it)%Z) (items c)
  && match coupon c with
     | Some cp => existsb (String.eqb (Coupon.type cp)) ["percentage"; "fixed"]
     | None => true
     end
  && match shippingMethod c with
     | Some m => existsb (String.eqb m) ["standard"; "express"; "overnight"]
     | None => true
     end.

(** The [shippingRates] object literal, as [const shippingRates = {...}];
    [lookup] is the property access [shippingRates[m]]. *)
Definition shippingRates : list (string * Q) :=
  [("standard", 5.99); ("express", 12.99); ("overnight", 24.99)].

Fixpoint lookup (table : list (string * Q)) (k : string) : option Q :=
  match table with
  | [] => None
  | (k0, v) :: rest => if (k0 =? k)%string then Some v else lookup rest k
  end.

Definition rate_of (m : option string) : option Q :=
  match m with
  | Some k => lookup shippingRates k
  | None => None
  end.

(** [item.product.price + (item.variant?.priceAdjustment || 0)] *)
Definition itemPrice (p : Product.t) (v : option Variant) : Q :=
  Product.price p
  + or_else (match v with Some x => priceAdjustment x | None => None end) 0.

(** The coupon block of [calculateTotals] (Cart.js 135-144), repeated in
    [createOrder] (order.controller.js 77-85); the specification calls it
    [computeDiscount].  [coupon] is a nested path of the schema (Cart.js
    65-72), so [this.coupon] is an object even when no coupon is set and
    [if (this.coupon)] is always taken: on the empty slot [type] is not
    'percentage' and the result is [this.coupon.discount], which is
    [undefined]. *)
Definition computeDiscount (sub : Q) (cp : option Coupon.t) : option Q :=
  match cp with
  | Some c =>
      Some (if (Coupon.type c =? "percentage")%string
            then (sub * Coupon.discount c) / 100
            else Coupon.discount c)
  | None => None
  end.

(** [cartSchema.methods.calculateTotals]; [db] is the product collection
    that [populate('items.product')] reads. *)
Definition calculateTotals (db : Product.Collection) (c : t) : t :=
  let sub :=
    fold_left
      (fun acc item =>
         match Product.findById db (product item) with
         | Some p => acc + itemPrice p (variant item) * inject_Z (quantity item)
         | None => acc
         end)
      (items c) 0 in
  let sh := or_else (rate_of (shippingMethod c)) 0 in
  match computeDiscount sub (coupon c) with
  | Some di =>
      let tx := (sub - di) * 0.08 in
      set_totals c sub tx sh (Some di) (sub - di + tx + sh)
  | None =>
      (* [this.discount = undefined]; [(subtotal - undefined) * 0.08] and
         the sum after it are [NaN], which the paths [tax] and [total] do
         not take: both keep the value they had *)
      set_totals c sub (tax c) sh None (total c)
  end.

(** [this.isModified(path)] for the three paths the hook looks at: the
    value differs from the one held by [orig], the document as it was
    loaded or last saved. *)
Definition isModified_items (orig c : t) : bool :=
  negb (items_eqb (items orig) (items c)).

Definition isModified_coupon (orig c : t) : bool :=
  negb (option_eqb Coupon.eqb (coupon orig) (coupon c)).

Definition isModified_shippingMethod (orig c : t) : bool :=
  negb (option_eqb String.eqb (shippingMethod orig) (shippingMethod c)).

(** The guard of [cartSchema.pre('save')]. *)
Definition hookFires (orig c : t) : bool :=
  isModified_items orig c || isModified_coupon orig c
  || isModified_shippingMethod orig c.

(** [cartSchema.pre('save')] followed by the write: [c] is the mutated
    document, [orig] its state before the mutation.  The write takes
    place when [c] passes [validates]; the methods below give the
    document of that case. *)
Definition save (db : Product.Collection) (now : Z) (orig c : t) : t :=
  let c' := if hookFires orig c then calculateTotals db c else c in
  set_lastActivity c' now.

(** The predicate shared by [find] and [filter] in the three line
    methods: same product id and same variant text. *)
Definition sameLine (productId : string) (v : option Variant) (item : Item)
  : bool :=
  (product item =? productId)%string && variant_eqb (variant item) v.

(** In-place update of the element returned by [Array.prototype.find]. *)
Fixpoint update_first (f : Item -> bool) (g : Item -> Item) (l : list Item)
  : list Item :=
  match l with
  | [] => []
  | x :: rest => if f x then g x :: rest else x :: update_first f g rest
  end.

(** [cartSchema.methods.addItem(productId, quantity = 1, variant = null)]
    on a document as [Cart.findOne] loads it, whose lines hold product
    ids.  The lines are compared with the variant of the call; the line
    pushed is stored as the schema casts it.  The result is the document
    handed to [save()], which stores it when it passes [validates].  (On
    a document whose lines an earlier save of the same request has
    populated, [item.product.toString()] is not an id, no line matches
    and the call appends.) *)
Definition addItem (db : Product.Collection) (now : Z) (productId : string)
  (qty : option Z) (v : option Variant) (c : t) : t :=
  let q := or_else qty 1%Z in
  let items' :=
    if existsb (sameLine productId v) (items c) then
      update_first (sameLine productId v)
        (fun it => mkItem (product it) (quantity it + q)%Z (variant it)
                          (addedAt it) now)
        (items c)
    else (items c ++ [mkItem productId q (castVariant v) now now])%list in
  save db now c (set_items c items').

(** [cartSchema.methods.removeItem(productId, variant = null)] *)
Definition removeItem (db : Product.Collection) (now : Z)
  (productId : string) (v : option Variant) (c : t) : t :=
  save db now c
    (set_items c (filter (fun it => negb (sameLine productId v it)) (items c))).

(** [cartSchema.methods.updateQuantity(productId, quantity, variant = null)] *)
Definition updateQuantity (db : Product.Collection) (now : Z)
  (productId : string) (qty : Z) (v : option Variant) (c : t) : t :=
  if existsb (sameLine productId v) (items c) then
    if (qty <=? 0)%Z then removeItem db now productId v c
    else
      save db now c
        (set_items c
           (update_first (sameLine productId v)
              (fun it => mkItem (product it) qty (variant it) (addedAt it) now)
              (items c)))
  else c.

(** [cartSchema.methods.clear] *)
Definition clear (db : Product.Collection) (now : Z) (c : t) : t :=
  save db now c
    (set_totals (set_coupon (set_items c []) None) 0 0 0 (Some 0) 0).

(** [cartSchema.methods.applyCoupon(couponCode, discount,
    type = 'percentage')] *)
Definition applyCoupon (db : Product.Collection) (now : Z) (couponCode : string)
  (di : Q) (ty : option string) (c : t) : t :=
  save db now c
    (set_coupon c (Some (Coupon.mk couponCode di (or_else ty "percentage")))).

(** [cartSchema.methods.removeCoupon] *)
Definition removeCoupon (db : Product.Collection) (now : Z) (c : t) : t :=
  save db now c (set_coupon c None).

(** [updateShippingMethod] of the cart controller:
    [cart.shippingMethod = method; await cart.save()]. *)
Definition updateShippingMethod (db : Product.Collection) (now : Z)
  (method : option string) (c : t) : t :=
  save db now c (set_shippingMethod c method).

(** [cartSchema.methods.getItemCount] *)
Definition getItemCount (c : t) : Z :=
  fold_left (fun tot it => (tot + quantity it)%Z) (items c) 0%Z.

Record StockIssue := mkIssue {
  issue_product : string;       (* item.product.name *)
  requested     : Z;
  issue_available : option Z;
  issue_message : Product.StockMessage
}.

Record StockValidation := mkValidation {
  isValid : bool;
  issues  : list StockIssue
}.

(** [cartSchema.methods.validateStock] *)
Definition validateStock (db : Product.Collection) (c : t) : StockValidation :=
  let stockIssues :=
    fold_left
      (fun acc item =>
         match Product.findById db (product item) with
         | Some p =>
             if Product.trackQuantity (Product.inventory p) then
               let stockCheck := Product.checkStock p (quantity item) in
               if negb (Product.available stockCheck) then
                 (acc ++ [mkIssue (Product.name p) (quantity item)
                                  (Product.availableQuantity stockCheck)
                                  (Product.message stockCheck)])%list
               else acc
             else acc
         | None => acc
         end)
      (items c) [] in
  mkValidation (Nat.eqb (length stockIssues) 0) stockIssues.

(** The mutation operations of a cart, as the controller exposes them. *)
Inductive Mutation :=
| AddItem (productId : string) (qty : option Z) (v : option Variant)
| UpdateQuantity (productId : string) (qty : Z) (v : option Variant)
| RemoveItem (productId : string) (v : option Variant)
| ApplyCoupon (couponCode : string) (di : Q) (ty : option string)
| RemoveCoupon
| SetShippingMethod (method : option string)
| Clear.

Definition mutate (db : Product.Collection) (now : Z) (m : Mutation) (c : t)
  : t :=
  match m with
  | AddItem pid q v => addItem db now pid q v c
  | UpdateQuantity pid q v => updateQuantity db now pid q v c
  | RemoveItem pid v => removeItem db now pid v c
  | ApplyCoupon code di ty => applyCoupon db now code di ty c
  | RemoveCoupon => removeCoupon db now c
  | SetShippingMethod m => updateShippingMethod db now m c
  | Clear => clear db now c
  end.

(** Carts built from a new cart through the mutation operations, each
    applied to the cart as the previous one stored it, the product
    collection and the clock being arbitrary at each call. *)
Inductive reachable : t -> Prop :=
| reach_create u now : reachable (create u now)
| reach_mutate db now m c : reachable c -> reachable (mutate db now m c).

(** [total == subtotal - discount + tax + shipping]; with [discount]
    undefined the right-hand side is [NaN], which equals nothing. *)
Definition totals_consistent (c : t) : Prop :=
  match discount c with
  | Some di => total c == subtotal c - di + tax c + shipping c
  | None => False
  end.

End Cart.

(** ** Order.js: the order document and its lifecycle methods *)
Module Order.

Local Open Scope Q_scope.

Inductive Status :=
| pending | confirmed | processing | shipped | delivered | cancelled
| returned.

Definition status_eqb (a b : Status) : bool :=
  match a, b with
  | pending, pending | confirmed, confirmed | processing, processing
  | shipped, shipped | delivered, delivered | cancelled, cancelled
  | returned, returned => true
  | _, _ => false
  end.

Record Item := mkItem {
  product    : string;
  name       : string;
  image      : string;
  price      : Q;
  quantity   : Z;
  variant    : option Cart.Variant;
  totalPrice : Q
}.

Record t := mk {
  user           : string;
  items          : list Item;
  subtotal       : Q;
  tax            : Q;
  shippingCost   : Q;
  discount       : Q;
  total          : Q;
  status         : Status;
  shippingMethod : option string;
  deliveredAt    : option Z;
  confirmedAt    : option Z;
  processingAt   : option Z;
  shippedAt      : option Z;
  cancelledAt    : option Z;
  returnedAt     : option Z
}.

(** [orderSchema.methods.updateStatus]: the status is set and the
    timestamp named by [statusTimestamps[newStatus]] is stamped. *)
Definition updateStatus (now : Z) (newStatus : Status) (o : t) : t :=
  let stamp (s : Status) (old : option Z) : option Z :=
    if status_eqb newStatus s then Some now else old in
  mk (user o) (items o) (subtotal o) (tax o) (shippingCost o) (discount o)
     (total o) newStatus (shippingMethod o)
     (stamp delivered (deliveredAt o)) (stamp confirmed (confirmedAt o))
     (stamp processing (processingAt o)) (stamp shipped (shippedAt o))
     (stamp cancelled (cancelledAt o)) (stamp returned (returnedAt o)).

(** [Order.create(doc)] with the document [createOrder] builds.
    [orderNumber] is a required path (Order.js 75-79) that only the
    pre-save hook sets (156-161); the validation of [save()] runs before
    that hook, on a document without it, and the call rejects ([None]). *)
Definition create (doc : t) : option t := None.

(** [orderSchema.methods.canBeCancelled] *)
Definition canBeCancelled (o : t) : bool :=
  existsb (status_eqb (status o)) [pending; confirmed].

(** Milliseconds in a day, [1000 * 60 * 60 * 24]. *)
Definition msPerDay : Z := (1000 * 60 * 60 * 24)%Z.

(** [orderSchema.methods.canBeReturned]; [now] is [Date.now()].  [None] is
    the [TypeError] of [this.deliveredAt.getTime()] on a delivered order
    without a delivery date. *)
Definition canBeReturned (now : Z) (o : t) : option bool :=
  if negb (status_eqb (status o) delivered) then Some false
  else
    match deliveredAt o with
    | None => None
    | Some d =>
        let daysSinceDelivery := ((now - d) / msPerDay)%Z in
        Some (daysSinceDelivery <=? 30)%Z
    end.

End Order.

(** ** order.controller.js: checkout and cancellation *)
Module Checkout.

Local Open Scope Q_scope.

Record Store := mkStore {
  products : Product.Collection;
  carts    : list Cart.t;
  orders   : list Order.t
}.

(** The part of [req] the handler reads: the authenticated user and
    [req.body.shippingMethod]. *)
Record Request := mkRequest {
  user           : string;
  shippingMethod : option string
}.

Inductive Response :=
| CartIsEmpty                                      (* 400 "Cart is empty" *)
| OutOfStock (issues : list Cart.StockIssue)       (* 400 with the issues *)
| Created (order : Order.t)                        (* 201 *)
| InternalError.                                   (* 500, a thrown error *)

(** [Cart.findOne({ user })] *)
Fixpoint findCart (cs : list Cart.t) (u : string) : option Cart.t :=
  match cs with
  | [] => None
  | c :: rest => if (Cart.user c =? u)%string then Some c else findCart rest u
  end.

(** Write of a cart document: the stored cart of the same user is
    replaced. *)
Fixpoint storeCart (cs : list Cart.t) (c : Cart.t) : list Cart.t :=
  match cs with
  | [] => []
  | c0 :: rest =>
      if (Cart.user c0 =? Cart.user c)%string then c :: rest
      else c0 :: storeCart rest c
  end.

(** JavaScript [a || b] on strings: the empty string is falsy. *)
Definition str_or (a b : option string) : option string :=
  match a with
  | Some EmptyString => b
  | Some s => Some s
  | None => b
  end.

(** The paths a [populate] of [items.product] selects.  [createOrder]
    populates with 'name price images inventory...' (lines 23-27);
    [cart.validateStock()] then populates the same path again with
    'inventory... name' (Cart.js 260-263), and the product documents it
    loads take the place of the earlier ones. *)
Inductive Selection :=
| forCheckout
| forStock.

Definition selectsImages (sel : Selection) : bool :=
  match sel with forCheckout => true | forStock => false end.

Definition selectsPrice (sel : Selection) : bool :=
  match sel with forCheckout => true | forStock => false end.

(** One element of [cart.items.map(...)] over products populated with
    [sel].  [None] is a thrown error: the [TypeError] of
    [item.product._id] when the populated product is [null], the
    [TypeError] of [item.product.images[0]] when [images] was not
    selected and reads [undefined]; without [price] the line has no
    number for its required [price] and [totalPrice]. *)
Definition orderItem (sel : Selection) (db : Product.Collection)
  (item : Cart.Item) : option Order.Item :=
  match Product.findById db (Cart.product item) with
  | Some p =>
      if negb (selectsImages sel) then None
      else if negb (selectsPrice sel) then None
      else
        Some (Order.mkItem (Product._id p) (Product.name p)
                (Cart.or_else (Product.image p) "") (Product.price p)
                (Cart.quantity item) (Cart.variant item)
                (Cart.itemPrice p (Cart.variant item)
                 * inject_Z (Cart.quantity item)))
  | None => None
  end.

Fixpoint orderItems (sel : Selection) (db : Product.Collection)
  (l : list Cart.Item) : option (list Order.Item) :=
  match l with
  | [] => Some []
  | item :: rest =>
      match orderItem sel db item, orderItems sel db rest with
      | Some o, Some os => Some (o :: os)
      | _, _ => None
      end
  end.

(** Lines 46-111 of [createOrder]: the order document handed to
    [Order.create], built from the cart as populated with [sel].  An
    undefined discount makes the total [NaN], which is no document
    either. *)
Definition buildOrder (sel : Selection) (db : Product.Collection)
  (req : Request) (cart : Cart.t) : option Order.t :=
  match orderItems sel db (Cart.items cart) with
  | None => None
  | Some its =>
      let subtotal :=
        fold_left (fun tot item => tot + Order.totalPrice item) its 0 in
      let tax := subtotal * 0.08 in
      let method := str_or (shippingMethod req) (Cart.shippingMethod cart) in
      let shippingCost := Cart.or_else (Cart.rate_of method) 5.99 in
      match Cart.computeDiscount subtotal (Cart.coupon cart) with
      | Some discount =>
          let total := subtotal + tax + shippingCost - discount in
          Some (Order.mk (user req) its subtotal tax shippingCost discount
                  total Order.pending method None None None None None None)
      | None => None
      end
  end.

(** One turn of the inventory loop: [Product.findById], then
    [updateStock(item.quantity, "decrease")] on the document read; [None]
    when the product is missing or does not track quantity. *)
Definition decremented (db : Product.Collection) (item : Cart.Item)
  : option Product.t :=
  match Product.findById db (Cart.product item) with
  | Some p =>
      if Product.trackQuantity (Product.inventory p)
      then Some (fst (Product.updateStock p (Cart.quantity item) "decrease"))
      else None
  | None => None
  end.

Definition decrementStock (db : Product.Collection) (item : Cart.Item)
  : Product.Collection :=
  match decremented db item with
  | Some p => Product.save db p
  | None => db
  end.

(** [createOrder], run from start to end with no other request in
    between.  When the order items are mapped, the products in memory are
    those of the populate of [validateStock]. *)
Definition createOrder (now : Z) (req : Request) (s : Store)
  : Response * Store :=
  match findCart (carts s) (user req) with
  | None => (CartIsEmpty, s)
  | Some cart =>
      if Nat.eqb (length (Cart.items cart)) 0 then (CartIsEmpty, s)
      else
        let stockValidation := Cart.validateStock (products s) cart in
        if negb (Cart.isValid stockValidation)
        then (OutOfStock (Cart.issues stockValidation), s)
        else
          match buildOrder forStock (products s) req cart with
          | None => (InternalError, s)
          | Some doc =>
              match Order.create doc with
              | None => (InternalError, s)
              | Some order =>
                  let products' :=
                    fold_left decrementStock (Cart.items cart) (products s) in
                  let cart' := Cart.clear products' now cart in
                  (Created order,
                   mkStore products' (storeCart (carts s) cart')
                           (order :: orders s))
              end
          end
  end.

(** The same handler cut at its [await]s, so that the steps of two
    requests can be interleaved.  A handler state records what the request
    holds in memory between two steps. *)
Inductive Handler :=
| Start
| Creating (cart : Cart.t) (order : Order.t)
| Decrementing (cart : Cart.t) (order : Order.t) (rest : list Cart.Item)
| SavingProduct (cart : Cart.t) (order : Order.t) (p : Product.t)
    (rest : list Cart.Item)
| ClearingCart (cart : Cart.t) (order : Order.t)
| Responded (r : Response).

Definition step (now : Z) (req : Request) (s : Store) (h : Handler)
  : Store * Handler :=
  match h with
  | Start =>
      (* Cart.findOne(...).populate(...), cart.validateStock(), and the
         synchronous construction of the order document *)
      match findCart (carts s) (user req) with
      | None => (s, Responded CartIsEmpty)
      | Some cart =>
          if Nat.eqb (length (Cart.items cart)) 0
          then (s, Responded CartIsEmpty)
          else
            let stockValidation := Cart.validateStock (products s) cart in
            if negb (Cart.isValid stockValidation)
            then (s, Responded (OutOfStock (Cart.issues stockValidation)))
            else
              match buildOrder forStock (products s) req cart with
              | None => (s, Responded InternalError)
              | Some doc => (s, Creating cart doc)
              end
      end
  | Creating cart doc =>
      (* await Order.create(...) *)
      match Order.create doc with
      | None => (s, Responded InternalError)
      | Some order =>
          (mkStore (products s) (carts s) (order :: orders s),
           Decrementing cart order (Cart.items cart))
      end
  | Decrementing cart order [] => (s, ClearingCart cart order)
  | Decrementing cart order (item :: rest) =>
      (* await Product.findById(item.product._id); updateStock *)
      match decremented (products s) item with
      | Some p => (s, SavingProduct cart order p rest)
      | None => (s, Decrementing cart order rest)
      end
  | SavingProduct cart order p rest =>
      (* await product.save() *)
      (mkStore (Product.save (products s) p) (carts s) (orders s),
       Decrementing cart order rest)
  | ClearingCart cart order =>
      (* await cart.clear() *)
      (mkStore (products s)
               (storeCart (carts s) (Cart.clear (products s) now cart))
               (orders s),
       Responded (Created order))
  | Responded r => (s, Responded r)
  end.

(** Two requests in flight over one store. *)
Record System := mkSystem {
  store : Store;
  left  : Handler;
  right : Handler
}.

(** A schedule names, turn by turn, the request that runs its next step:
    [true] for the left one, [false] for the right one. *)
Definition turn (now : Z) (reqL reqR : Request) (sys : System) (who : bool)
  : System :=
  if who then
    let (s, h) := step now reqL (store sys) (left sys) in
    mkSystem s h (right sys)
  else
    let (s, h) := step now reqR (store sys) (right sys) in
    mkSystem s (left sys) h.

Definition run (now : Z) (reqL reqR : Request) (schedule : list bool)
  (sys : System) : System :=
  fold_left (turn now reqL reqR) schedule sys.

Definition succeeded (h : Handler) : bool :=
  match h with
  | Responded (Created _) => true
  | _ => false
  end.

Definition rejectedForStock (h : Handler) : bool :=
  match h with
  | Responded (OutOfStock _) => true
  | _ => false
  end.

(** [cancelOrder] after the authorisation checks: status change, then one
    [updateStock(item.quantity, "increase")] per order line. *)
Definition restoreStock (db : Product.Collection) (item : Order.Item)
  : Product.Collection :=
  match Product.findById db (Order.product item) with
  | Some p =>
      if Product.trackQuantity (Product.inventory p)
      then Product.save db
             (fst (Product.updateStock p (Order.quantity item) "increase"))
      else db
  | None => db
  end.

Definition cancelOrder (now : Z) (o : Order.t) (db : Product.Collection)
  : option (Order.t * Product.Collection) :=
  if negb (Order.canBeCancelled o) then None
  else Some (Order.updateStatus now Order.cancelled o,
             fold_left restoreStock (Order.items o) db).

End Checkout.

(** * Stated laws and sample data *)

(** ** Stock ledger *)

Definition decrease (p : Product.t) (qty : Z) : Product.t :=
  fst (Product.updateStock p qty "decrease").

Definition increase (p : Product.t) (qty : Z) : Product.t :=
  fst (Product.updateStock p qty "increase").

Definition stock (p : Product.t) : Z := Product.quantity (Product.inventory p).

(** The round-trip law as the specification words it, for every starting
    quantity. *)
Definition round_trip_law : Prop :=
  forall (p : Product.t) (qty : Z),
    Product.trackQuantity (Product.inventory p) = true -> 0 <= qty ->
    0 <= stock (decrease p qty)
    /\ stock (increase (decrease p qty) qty) = stock p.

(** One unit in stock on a product that allows backorders: a quantity of
    three passes [checkStock]. *)
Definition backorderable : Product.t :=
  Product.mk "p2" "Gadget" 35 None (Product.mkInventory true 1 5 true).

(** ** Cart pricing *)

(** Scenario A of the specification: one line, price 20.00, quantity 3, no
    variant, standard shipping, no coupon. *)
Definition widget : Product.t :=
  Product.mk "p1" "Widget" 20 None (Product.mkInventory true 10 5 false).

Definition catalog : Product.Collection := [widget; backorderable].

Definition cartA : Cart.t :=
  Cart.addItem catalog 1000 "p1" (Some 3) None (Cart.create "alice" 0).

(** Scenario B: the same cart with a 10% coupon. *)
Definition cartB : Cart.t :=
  Cart.applyCoupon catalog 2000 "TEN" 10 (Some "percentage") cartA.

(** A fixed coupon whose magnitude is negative; [applyCoupon] stores what
    it is given, and [mergeCart] of the cart controller hands it the guest
    cart's coupon as received. *)
Definition surcharge : Coupon.t := Coupon.mk "MINUS5" (-5) "fixed".

(** A fixed coupon of 5.00. *)
Definition fiveOff : Coupon.t := Coupon.mk "FIVE" 5 "fixed".

(** The zero floor the specification gives to fixed coupons. *)
Definition fixed_discount_floor_law : Prop :=
  forall (sub : Q) (cp : Coupon.t),
    Coupon.type cp = "fixed" ->
    exists di : Q,
      Cart.computeDiscount sub (Some cp) = Some di /\ (0 <= di)%Q.

(** A percentage coupon whose magnitude is negative. *)
Definition minusTen : Coupon.t := Coupon.mk "MINUS10" (-10) "percentage".



(** A variant as a request names it, without [priceAdjustment]. *)
Definition sizeL : Cart.Variant :=
  Cart.mkVariant (Some "Size") (Some "L") None.

(** The lines of a cart that carry a given identity, and the quantity they
    hold together. *)
Definition linesOf (productId : string) (v : option Cart.Variant)
  (c : Cart.t) : list Cart.Item :=
  filter (Cart.sameLine productId v) (Cart.items c).

Definition quantityOf (productId : string) (v : option Cart.Variant)
  (c : Cart.t) : Z :=
  fold_right (fun it acc => Cart.quantity it + acc) 0
    (linesOf productId v c).

(** The line [addItem] writes over the one it found. *)
Definition bump (q now : Z) (it : Cart.Item) : Cart.Item :=
  Cart.mkItem (Cart.product it) (Cart.quantity it + q) (Cart.variant it)
    (Cart.addedAt it) now.

(** ** Checkout *)

Definition storeB : Checkout.Store := Checkout.mkStore catalog [cartB] [].

Definition plainCheckout (u : string) : Checkout.Request :=
  Checkout.mkRequest u None.

(** Scenario C: the last unit of a product without backorders, in the
    carts of two users. *)
Definition scarce : Product.t :=
  Product.mk "p3" "Lamp" 15 None (Product.mkInventory true 1 0 false).

Definition cartOf (u : string) : Cart.t :=
  Cart.addItem [scarce] 1000 "p3" (Some 1) None (Cart.create u 0).

Definition scenarioC : Checkout.System :=
  Checkout.mkSystem
    (Checkout.mkStore [scarce] [cartOf "alice"; cartOf "bob"] [])
    Checkout.Start Checkout.Start.

Definition runC (schedule : list bool) : Checkout.System :=
  Checkout.run 5000 (plainCheckout "alice") (plainCheckout "bob") schedule
    scenarioC.

(** The two requests take their first steps one right after the other. *)
Definition racing : list bool :=
  [true; false; true; true; true; true; true;
   false; false; false; false; false].

(** The left request runs to its response before the right one starts. *)
Definition oneAfterTheOther : list bool :=
  [true; true; true; true; true; true;
   false; false; false; false; false; false].

(** All schedules of [n] turns. *)
Fixpoint schedules (n : nat) : list (list bool) :=
  match n with
  | O => [[]]
  | S k =>
      (map (cons true) (schedules k) ++ map (cons false) (schedules k))%list
  end.

Definition stockIn (db : Product.Collection) (id : string) : option Z :=
  option_map stock (Product.findById db id).

Definition stockOf (sys : Checkout.System) (id : string) : option Z :=
  stockIn (Checkout.products (Checkout.store sys)) id.

(** ** Order lifecycle *)

(** The return window as the specification words it: thirty days to the
    instant. *)
Definition return_window_law : Prop :=
  forall (now d : Z) (o : Order.t),
    Order.deliveredAt o = Some d ->
    (Order.canBeReturned now o = Some true
     <-> Order.status o = Order.delivered
         /\ now - d <= 30 * Order.msPerDay).

(** A pending order of three units of the product of Scenario A. *)
Definition pendingOrder : Order.t :=
  Order.mk "alice" [Order.mkItem "p1" "Widget" "" 20 3 None 60] 60 4.80 5.99
    0 70.79 Order.pending (Some "standard") None None None None None None.

Definition deliveredOrder (d : Z) : Order.t :=
  Order.mk "alice" [] 0 0 0 0 0 Order.delivered (Some "standard")
    (Some d) None None None None None.

(** * Further code of the same files *)

(** ** Product.js: virtuals, slug and rating summary *)
Module ProductMethods.

Local Open Scope Q_scope.

(** [Math.round]: the nearest integer, halves upwards. *)
Definition round (x : Q) : Z := Qfloor (x + (1 # 2)).

(** The virtual [discountPercentage], on the two fields it reads.  A
    missing or zero [compareAtPrice] is falsy. *)
Definition discountPercentage (price : Q) (compareAtPrice : option Q) : Z :=
  match compareAtPrice with
  | Some cap =>
      if negb (Qeq_bool cap 0) && negb (Qle_bool cap price)
      then round (((cap - price) / cap) * 100)
      else 0%Z
  | None => 0%Z
  end.


(** A review, with the field the summary reads. *)
Record Review := mkReview {
  reviewer : string;
  rating   : Q;           (* schema: min 1, max 5 *)
  comment  : string
}.

(** The [ratings] sub-document.  [distribution] is an object keyed by the
    rating; a value is [None] when it is [NaN]. *)
Record Ratings := mkRatings {
  average      : Q;
  count        : nat;
  distribution : list (Q * option Z)
}.

(** [{ 1: 0, 2: 0, 3: 0, 4: 0, 5: 0 }] *)
Definition emptyDistribution : list (Q * option Z) :=
  [(1, Some 0%Z); (2, Some 0%Z); (3, Some 0%Z); (4, Some 0%Z);
   (5, Some 0%Z)].

(** [distribution[k]++]: an absent key reads [undefined], whose increment
    stores [NaN]. *)
Fixpoint increment (k : Q) (d : list (Q * option Z)) : list (Q * option Z) :=
  match d with
  | [] => [(k, None)]
  | (k0, n) :: rest =>
      if Qeq_bool k0 k then (k0, option_map Z.succ n) :: rest
      else (k0, n) :: increment k rest
  end.

(** [distribution[k]] *)
Fixpoint tally (k : Q) (d : list (Q * option Z)) : option (option Z) :=
  match d with
  | [] => None
  | (k0, n) :: rest => if Qeq_bool k0 k then Some n else tally k rest
  end.

(** [productSchema.methods.calculateAverageRating], from the reviews to
    the [ratings] it assigns. *)
Definition calculateAverageRating (reviews : list Review) : Ratings :=
  if Nat.eqb (length reviews) 0 then mkRatings 0 0 emptyDistribution
  else
    let totalRating :=
      fold_left (fun sum review => sum + rating review) reviews 0 in
    mkRatings (totalRating / inject_Z (Z.of_nat (length reviews)))
      (length reviews)
      (fold_left (fun d review => increment (rating review) d) reviews
         emptyDistribution).

(** Characters of a name, taken in ASCII. *)
Definition isUpper (c : ascii) : bool :=
  (65 <=? nat_of_ascii c)%nat && (nat_of_ascii c <=? 90)%nat.

Definition isLowerOrDigit (c : ascii) : bool :=
  ((97 <=? nat_of_ascii c)%nat && (nat_of_ascii c <=? 122)%nat)
  || ((48 <=? nat_of_ascii c)%nat && (nat_of_ascii c <=? 57)%nat).

Definition dash : ascii := "-"%char.

(** [String.prototype.toLowerCase] on ASCII. *)
Definition toLowerCase (s : list ascii) : list ascii :=
  map (fun c => if isUpper c then ascii_of_nat (nat_of_ascii c + 32) else c)
    s.

(** [.replace(/[^a-z0-9]+/g, "-")]: every maximal run of other characters
    becomes one dash; [inRun] tells that the run has been replaced
    already. *)
Fixpoint dashRuns (inRun : bool) (s : list ascii) : list ascii :=
  match s with
  | [] => []
  | c :: rest =>
      if isLowerOrDigit c then c :: dashRuns false rest
      else if inRun then dashRuns true rest
      else dash :: dashRuns true rest
  end.

(** [.replace(/^-|-$/g, "")]: one dash off the start, then one off the
    end. *)
Definition dropLeading (s : list ascii) : list ascii :=
  match s with
  | c :: rest => if Ascii.eqb c dash then rest else s
  | [] => []
  end.

Fixpoint dropTrailing (s : list ascii) : list ascii :=
  match s with
  | [] => []
  | [c] => if Ascii.eqb c dash then [] else [c]
  | c :: rest => c :: dropTrailing rest
  end.

(** The slug the pre-save hook of the product derives from [name]. *)
Definition slugify (name : list ascii) : list ascii :=
  dropTrailing (dropLeading (dashRuns false (toLowerCase name))).

End ProductMethods.

(** ** Wishlist.js and the move of a wishlist item into the cart *)
Module Wishlist.

Record Item := mkItem {
  product  : string;
  addedAt  : Z;
  notes    : string;
  priority : string        (* schema enum: 'low' | 'medium' | 'high' *)
}.

Record t := mk {
  user      : string;
  items     : list Item;
  updatedAt : Z
}.

(** [wishlistSchema.pre('save')] and the write. *)
Definition save (now : Z) (w : t) : t := mk (user w) (items w) now.

Definition isProduct (productId : string) (item : Item) : bool :=
  (product item =? productId)%string.

Fixpoint update_first (f : Item -> bool) (g : Item -> Item) (l : list Item)
  : list Item :=
  match l with
  | [] => []
  | x :: rest => if f x then g x :: rest else x :: update_first f g rest
  end.

(** [wishlistSchema.methods.addItem(productId, notes = '',
    priority = 'medium')] *)
Definition addItem (now : Z) (productId : string) (notes0 : option string)
  (priority0 : option string) (w : t) : t :=
  let n := Cart.or_else notes0 "" in
  let p := Cart.or_else priority0 "medium" in
  let items' :=
    if existsb (isProduct productId) (items w) then
      update_first (isProduct productId)
        (fun it => mkItem (product it) now n p) (items w)
    else (items w ++ [mkItem productId now n p])%list in
  save now (mk (user w) items' (updatedAt w)).

(** [wishlistSchema.methods.removeItem] *)
Definition removeItem (now : Z) (productId : string) (w : t) : t :=
  save now
    (mk (user w)
        (filter (fun it => negb (isProduct productId it)) (items w))
        (updatedAt w)).

(** [wishlistSchema.methods.hasItem] *)
Definition hasItem (productId : string) (w : t) : bool :=
  existsb (isProduct productId) (items w).

(** [wishlistSchema.methods.clear] *)
Definition clear (now : Z) (w : t) : t :=
  save now (mk (user w) [] (updatedAt w)).

(** [wishlistSchema.methods.moveToCart]: the item found, if any, and the
    wishlist; nothing is saved when the product is not listed. *)
Definition moveToCart (now : Z) (productId : string) (w : t)
  : option Item * t :=
  match find (isProduct productId) (items w) with
  | Some item => (Some item, removeItem now productId w)
  | None => (None, w)
  end.

(** [wishlistSchema.methods.getItemsByPriority] *)
Definition getItemsByPriority (p : string) (w : t) : list Item :=
  filter (fun it => (priority it =? p)%string) (items w).

Inductive MoveResponse :=
| WishlistNotFound                       (* 404 *)
| ItemNotInWishlist                      (* 404 *)
| Moved (w : t) (cart : Cart.t).         (* 200 *)

(** [moveWishlistItemToCart] of the wishlist controller.  A wishlist item
    has no variant, so [variant || item.variant] is the request's. *)
Definition moveWishlistItemToCart (db : Product.Collection) (now : Z)
  (u : string) (productId : string) (qty : option Z)
  (v : option Cart.Variant) (wishlist : option t) (cart : option Cart.t)
  : MoveResponse :=
  match wishlist with
  | None => WishlistNotFound
  | Some w =>
      match moveToCart now productId w with
      | (None, _) => ItemNotInWishlist
      | (Some _, w') =>
          let c :=
            match cart with
            | Some c => c
            | None => Cart.create u now
            end in
          Moved w' (Cart.addItem db now productId (Some (Cart.or_else qty 1%Z))
                      v c)
      end
  end.

End Wishlist.

(** ** Notions used to state the further properties *)

(** No two lines of the cart carry the same identity. *)
Definition uniqueLines (c : Cart.t) : Prop :=
  forall (productId : string) (v : option Cart.Variant),
    (length (linesOf productId v c) <= 1)%nat.

(** The units a list of cart lines asks of one product. *)
Definition demand (id : string) (l : list Cart.Item) : Z :=
  fold_right
    (fun it acc =>
       if (Cart.product it =? id)%string then Cart.quantity it + acc else acc)
    0 l.

(** The units a list of order lines gives back to one product. *)
Definition restored (id : string) (l : list Order.Item) : Z :=
  fold_right
    (fun it acc =>
       if (Order.product it =? id)%string then Order.quantity it + acc
       else acc)
    0 l.

(** The quantity left of one product once the lines of a cart have been
    taken off a starting quantity one after the other, each floored at
    zero. *)
Definition takenOff (id : string) (l : list Cart.Item) (start : Z) : Z :=
  fold_left
    (fun s it =>
       if (Cart.product it =? id)%string
       then Z.max 0 (s - Cart.quantity it) else s)
    l start.


(** A request that has written nothing: it has not started, or it has
    answered without an order. *)
Definition wroteNothing (h : Checkout.Handler) : bool :=
  match h with
  | Checkout.Start => true
  | Checkout.Responded (Checkout.Created _) => false
  | Checkout.Responded _ => true
  | _ => false
  end.


(** A line passes the stock check of [validateStock]. *)
Definition lineInStock (db : Product.Collection) (item : Cart.Item) : bool :=
  match Product.findById db (Cart.product item) with
  | Some p =>
      negb (Product.trackQuantity (Product.inventory p))
      || Product.allowBackorders (Product.inventory p)
      || (Cart.quantity item <=? stock p)
  | None => true
  end.

(** The issue [validateStock] reports on a line that fails it. *)
Definition issueOf (db : Product.Collection) (item : Cart.Item)
  : list Cart.StockIssue :=
  match Product.findById db (Cart.product item) with
  | Some p =>
      if lineInStock db item then []
      else [Cart.mkIssue (Product.name p) (Cart.quantity item)
              (Some (stock p)) (Product.OnlyItemsAvailable (stock p))]
  | None => []
  end.

(** A well-formed slug: lower-case letters, digits and single dashes, with
    no dash at either end. *)
Definition slugChar (c : ascii) : bool :=
  ProductMethods.isLowerOrDigit c || Ascii.eqb c ProductMethods.dash.

Definition startsWithDash (l : list ascii) : bool :=
  match l with
  | c :: _ => Ascii.eqb c ProductMethods.dash
  | [] => false
  end.

Fixpoint endsWithDash (l : list ascii) : bool :=
  match l with
  | [] => false
  | [c] => Ascii.eqb c ProductMethods.dash
  | _ :: rest => endsWithDash rest
  end.

Fixpoint noDoubleDash (l : list ascii) : bool :=
  match l with
  | c :: rest =>
      negb (Ascii.eqb c ProductMethods.dash && startsWithDash rest)
      && noDoubleDash rest
  | [] => true
  end.

Definition wellFormedSlug (l : list ascii) : bool :=
  forallb slugChar l && noDoubleDash l && negb (startsWithDash l)
  && negb (endsWithDash l).

(** The names the embedding of [slugify] stands for. *)
Definition isAscii (l : list ascii) : Prop :=
  Forall (fun c => (nat_of_ascii c < 128)%nat) l.

(** A whole number of stars, from one to five. *)
Definition wholeStars (r : ProductMethods.Review) : Prop :=
  exists k : Z, 1 <= k <= 5 /\ (ProductMethods.rating r == inject_Z k)%Q.

(** The amount of one cart line over a product collection: nothing when
    the product is missing. *)
Definition lineAmount (db : Product.Collection) (it : Cart.Item) : Q :=
  match Product.findById db (Cart.product it) with
  | Some p =>
      (Cart.itemPrice p (Cart.variant it) * inject_Z (Cart.quantity it))%Q
  | None => 0%Q
  end.

Definition linesAmount (db : Product.Collection) (l : list Cart.Item) : Q :=
  fold_right (fun it s => (lineAmount db it + s)%Q) 0%Q l.



(** Every line of the cart holds a variant as the schema stores it. *)
Definition storedVariants (c : Cart.t) : Prop :=
  Forall (fun it => Cart.isCast (Cart.variant it) = true) (Cart.items c).

(** * Properties *)

Local Open Scope list_scope.

(** ** Stock ledger *)
Section StockLedger.

Import Product.

Lemma decrease_quantity (p : t) (qty : Z) :
  trackQuantity (inventory p) = true ->
  stock (decrease p qty) = Z.max 0 (stock p - qty).
Proof.
  intros Htrack. unfold stock, decrease, updateStock. rewrite Htrack. simpl.
  destruct (_ <=? _); reflexivity.
Qed.

Lemma increase_quantity (p : t) (qty : Z) :
  trackQuantity (inventory p) = true ->
  stock (increase p qty) = stock p + qty.
Proof.
  intros Htrack. unfold stock, increase, updateStock. rewrite Htrack. simpl.
  destruct (_ <=? _); reflexivity.
Qed.

Lemma decrease_keeps_tracking (p : t) (qty : Z) :
  trackQuantity (inventory (decrease p qty)) = trackQuantity (inventory p).
Proof.
  unfold decrease, updateStock.
  destruct (trackQuantity (inventory p)) eqn:Htrack; simpl; auto.
  destruct (_ <=? _); simpl; auto.
Qed.

(** C5, as stated, fails: with one unit in stock a decrease by three clamps
    at zero and the following increase by three leaves three units. *)
Lemma round_trip_law_fails : ~ round_trip_law.
Proof.
  intros Hlaw.
  destruct (Hlaw backorderable 3 eq_refl ltac:(lia)) as [_ Hback].
  vm_compute in Hback. discriminate Hback.
Qed.

(** C5, amended: on a record that tracks quantity and for a delta
    [qty >= 0], a decrease never leaves a negative quantity; the increase
    by [qty] that follows it restores the starting quantity whenever
    [qty] does not exceed it, and leaves exactly [qty] when it does. *)
Theorem decrease_increase_round_trip (p : t) (qty : Z) :
  trackQuantity (inventory p) = true -> 0 <= qty ->
  0 <= stock (decrease p qty)
  /\ (qty <= stock p -> stock (increase (decrease p qty) qty) = stock p)
  /\ (stock p < qty -> stock (increase (decrease p qty) qty) = qty).
Proof.
  intros Htrack Hqty.
  rewrite increase_quantity
    by (rewrite decrease_keeps_tracking; exact Htrack).
  rewrite decrease_quantity by exact Htrack.
  repeat split; lia.
Qed.

Lemma decrease_increase_round_trip_witness :
  0 <= stock (decrease widget 3)
  /\ (3 <= stock widget ->
      stock (increase (decrease widget 3) 3) = stock widget)
  /\ (stock widget < 3 -> stock (increase (decrease widget 3) 3) = 3).
Proof.
  apply (decrease_increase_round_trip widget 3); [reflexivity | lia].
Defined.

(** C10: on a record that tracks quantity, whatever the operation, the
    [lowStock] event is emitted (once, carrying the updated document)
    exactly when the quantity after the call is at most
    [lowStockThreshold]; in particular an increase that stays at or under
    the threshold emits it.  Without tracking the document is unchanged
    and nothing is emitted. *)
Theorem updateStock_low_stock_signal (p : t) (qty : Z) (operation : string) :
  let p' := fst (updateStock p qty operation) in
  let emitted := snd (updateStock p qty operation) in
  (if trackQuantity (inventory p) then
     emitted
     = (if stock p' <=? lowStockThreshold (inventory p')
        then [lowStock p'] else [])
   else p' = p /\ emitted = [])
  /\ snd (updateStock p qty "increase")
     = (if trackQuantity (inventory p)
           && (stock p + qty <=? lowStockThreshold (inventory p))
        then [lowStock (set_quantity p (stock p + qty))]
        else []).
Proof.
  unfold updateStock, stock.
  destruct (trackQuantity (inventory p)) eqn:Htrack; simpl.
  - split.
    + set (q' := if String.eqb operation "decrease" then _ else _).
      destruct (quantity (inventory q') <=? lowStockThreshold (inventory q'))
        eqn:Hlow; simpl; rewrite Hlow; reflexivity.
    + destruct (_ <=? _); reflexivity.
  - auto.
Qed.

End StockLedger.

(** ** Cart pricing *)
Section CartPricing.

Import Cart.
Local Open Scope Q_scope.

Variable db : Product.Collection.

Lemma items_calculateTotals (c : t) : items (calculateTotals db c) = items c.
Proof. unfold calculateTotals. destruct (computeDiscount _ _); reflexivity. Qed.

Lemma coupon_calculateTotals (c : t) :
  coupon (calculateTotals db c) = coupon c.
Proof. unfold calculateTotals. destruct (computeDiscount _ _); reflexivity. Qed.

Lemma shippingMethod_calculateTotals (c : t) :
  shippingMethod (calculateTotals db c) = shippingMethod c.
Proof. unfold calculateTotals. destruct (computeDiscount _ _); reflexivity. Qed.


Lemma items_save (now : Z) (orig c : t) :
  items (save db now orig c) = items c.
Proof.
  unfold save. destruct (hookFires _ _); simpl;
    [apply items_calculateTotals | reflexivity].
Qed.

Lemma coupon_save (now : Z) (orig c : t) :
  coupon (save db now orig c) = coupon c.
Proof.
  unfold save. destruct (hookFires _ _); simpl;
    [apply coupon_calculateTotals | reflexivity].
Qed.

Lemma shippingMethod_save (now : Z) (orig c : t) :
  shippingMethod (save db now orig c) = shippingMethod c.
Proof.
  unfold save. destruct (hookFires _ _); simpl;
    [apply shippingMethod_calculateTotals | reflexivity].
Qed.

(** With a coupon set, the recompute leaves the totals consistent. *)
Lemma calculateTotals_with_coupon (c : t) (cp : Coupon.t) :
  coupon c = Some cp -> totals_consistent (calculateTotals db c).
Proof.
  intros Hcoupon. unfold totals_consistent, calculateTotals.
  rewrite Hcoupon. simpl. reflexivity.
Qed.

(** On the empty coupon slot the recompute stores an undefined discount
    and leaves tax and total as they were. *)
Lemma calculateTotals_without_coupon (c : t) :
  coupon c = None ->
  discount (calculateTotals db c) = None
  /\ tax (calculateTotals db c) = tax c
  /\ total (calculateTotals db c) = total c.
Proof.
  intros Hcoupon. unfold calculateTotals. rewrite Hcoupon. simpl.
  repeat split.
Qed.

Lemma save_fired (now : Z) (orig c : t) :
  hookFires orig c = true ->
  save db now orig c = set_lastActivity (calculateTotals db c) now.
Proof. intros Hfire. unfold save. rewrite Hfire. reflexivity. Qed.

Lemma save_without_coupon (now : Z) (orig c : t) :
  coupon c = None -> hookFires orig c = true ->
  discount (save db now orig c) = None.
Proof.
  intros Hcoupon Hfire. rewrite save_fired by exact Hfire. simpl.
  apply calculateTotals_without_coupon. exact Hcoupon.
Qed.

Lemma save_with_coupon (now : Z) (orig c : t) (cp : Coupon.t) :
  coupon c = Some cp -> hookFires orig c = true ->
  totals_consistent (save db now orig c).
Proof.
  intros Hcoupon Hfire. rewrite save_fired by exact Hfire.
  exact (calculateTotals_with_coupon c cp Hcoupon).
Qed.

Lemma Qeq_bool_refl (q : Q) : Qeq_bool q q = true.
Proof. apply Qeq_bool_iff. reflexivity. Qed.

Lemma option_eqb_refl {A : Type} (eqb : A -> A -> bool) (a : option A) :
  (forall x, eqb x x = true) -> option_eqb eqb a a = true.
Proof. intros Hrefl. destruct a; simpl; auto. Qed.

Lemma variant_eqb_refl (v : option Variant) : variant_eqb v v = true.
Proof.
  unfold variant_eqb. apply option_eqb_refl. intros x.
  rewrite !option_eqb_refl;
    auto using String.eqb_refl, Qeq_bool_refl.
Qed.

Lemma items_eqb_refl (l : list Item) : items_eqb l l = true.
Proof.
  induction l as [| a l IH]; simpl; [reflexivity |].
  unfold item_eqb.
  rewrite String.eqb_refl, !Z.eqb_refl, variant_eqb_refl, IH. reflexivity.
Qed.

Lemma hookFires_same (c : t) : hookFires c c = false.
Proof.
  unfold hookFires, isModified_items, isModified_coupon,
    isModified_shippingMethod.
  rewrite items_eqb_refl.
  rewrite !option_eqb_refl; auto using String.eqb_refl.
  intros x. unfold Coupon.eqb.
  rewrite !String.eqb_refl, Qeq_bool_refl. reflexivity.
Qed.

Lemma hookFires_save (now : Z) (orig c : t) :
  hookFires orig (save db now orig c) = hookFires orig c.
Proof.
  unfold hookFires, isModified_items, isModified_coupon,
    isModified_shippingMethod.
  rewrite items_save, coupon_save, shippingMethod_save. reflexivity.
Qed.

(** Every mutation is one [save] of the document it has changed, or
    leaves the cart as it is. *)
Lemma mutate_is_save (now : Z) (m : Mutation) (c : t) :
  mutate db now m c = c
  \/ exists changed : t, mutate db now m c = save db now c changed.
Proof.
  destruct m; cbn [mutate];
    unfold addItem, updateQuantity, removeItem, applyCoupon, removeCoupon,
      updateShippingMethod, clear;
    try (right; eexists; reflexivity).
  destruct (existsb _ _); [| left; reflexivity].
  destruct (_ <=? _)%Z; right; eexists; reflexivity.
Qed.

Lemma mutate_without_coupon (now : Z) (m : Mutation) (c : t) :
  coupon (mutate db now m c) = None ->
  hookFires c (mutate db now m c) = true ->
  discount (mutate db now m c) = None.
Proof.
  destruct (mutate_is_save now m c) as [Hsame | [changed Hsave]].
  - rewrite Hsame, hookFires_same. discriminate.
  - rewrite Hsave, coupon_save, hookFires_save.
    apply save_without_coupon.
Qed.

Lemma mutate_with_coupon (now : Z) (m : Mutation) (c : t) (cp : Coupon.t) :
  coupon (mutate db now m c) = Some cp ->
  hookFires c (mutate db now m c) = true ->
  totals_consistent (mutate db now m c).
Proof.
  destruct (mutate_is_save now m c) as [Hsame | [changed Hsave]].
  - rewrite Hsame, hookFires_same. discriminate.
  - rewrite Hsave, coupon_save, hookFires_save.
    apply save_with_coupon.
Qed.

End CartPricing.

(** C3, on the code: the recompute keeps
    [total == subtotal - discount + tax + shipping] only while a coupon is
    set.  On a cart without coupon every mutation that triggers the
    recompute stores an undefined discount and leaves tax and total as
    they were, so the equation fails.  Scenario A of the specification, a
    new cart that received three units at 20.00, is stored with subtotal
    60, shipping 5.99, tax 0, total 0 and no discount. *)
Theorem totals_stale_without_coupon :
  (forall (db : Product.Collection) (now : Z) (m : Cart.Mutation)
          (c : Cart.t),
     Cart.coupon (Cart.mutate db now m c) = None ->
     Cart.hookFires c (Cart.mutate db now m c) = true ->
     Cart.discount (Cart.mutate db now m c) = None
     /\ ~ Cart.totals_consistent (Cart.mutate db now m c))
  /\ (forall (db : Product.Collection) (now : Z) (m : Cart.Mutation)
             (c : Cart.t) (cp : Coupon.t),
        Cart.coupon (Cart.mutate db now m c) = Some cp ->
        Cart.hookFires c (Cart.mutate db now m c) = true ->
        Cart.totals_consistent (Cart.mutate db now m c))
  /\ cartA = Cart.mutate catalog 1000 (Cart.AddItem "p1" (Some 3) None)
               (Cart.create "alice" 0)
  /\ Cart.validates cartA = true
  /\ (Cart.subtotal cartA == 60)%Q
  /\ Cart.discount cartA = None
  /\ (Cart.tax cartA == 0)%Q
  /\ (Cart.shipping cartA == 5.99)%Q
  /\ (Cart.total cartA == 0)%Q
  /\ ~ Cart.totals_consistent cartA.
Proof.
  split; [| split; [| split; [| split; [| split; [| split;
    [| split; [| split; [| split]]]]]]]].
  - intros db now m c Hcoupon Hfire.
    assert (Hdiscount : Cart.discount (Cart.mutate db now m c) = None)
      by (apply mutate_without_coupon; assumption).
    split; [exact Hdiscount |].
    unfold Cart.totals_consistent. rewrite Hdiscount. intros Hfalse.
    exact Hfalse.
  - intros db now m c cp. apply mutate_with_coupon.
  - reflexivity.
  - vm_compute. reflexivity.
  - vm_compute. reflexivity.
  - vm_compute. reflexivity.
  - vm_compute. reflexivity.
  - vm_compute. reflexivity.
  - vm_compute. reflexivity.
  - vm_compute. intros Hfalse. exact Hfalse.
Qed.

Section CartOperations.

Import Cart.
Local Open Scope Q_scope.

Lemma clearing_fires (c : t) :
  items c <> [] \/ coupon c <> None ->
  hookFires c (set_coupon (set_items c []) None) = true.
Proof.
  intros Hheld. unfold hookFires, isModified_items, isModified_coupon. simpl.
  destruct (items c); [| reflexivity].
  destruct (coupon c); [reflexivity |].
  destruct Hheld as [Hlines | Hcoupon]; contradiction.
Qed.

(** C7, on the code: clearing a cart that has a line or a coupon empties
    the lines and the coupon, and subtotal, tax and total are zero; but
    the save hook runs the recompute over what [clear] had set: shipping
    is the table rate of the cart's shipping method, not zero, and the
    discount is undefined, not zero.  The total stays at the zero [clear]
    gave it, so it does not equal the sum of its parts. *)
Theorem clear_leaves_shipping_charged (db : Product.Collection) (now : Z)
  (c : t) :
  items c <> [] \/ coupon c <> None ->
  let c' := clear db now c in
  items c' = [] /\ coupon c' = None
  /\ subtotal c' = 0 /\ tax c' = 0 /\ total c' = 0
  /\ discount c' = None
  /\ shipping c' = or_else (rate_of (shippingMethod c)) 0
  /\ ~ totals_consistent c'.
Proof.
  intros Hheld. unfold clear, save.
  change (hookFires c
            (set_totals (set_coupon (set_items c []) None) 0 0 0 (Some 0) 0))
    with (hookFires c (set_coupon (set_items c []) None)).
  rewrite clearing_fires by exact Hheld.
  cbn. repeat split. intros Hfalse. exact Hfalse.
Qed.

Lemma clear_leaves_shipping_charged_witness :
  items (clear catalog 3000 cartB) = []
  /\ coupon (clear catalog 3000 cartB) = None
  /\ subtotal (clear catalog 3000 cartB) = 0
  /\ tax (clear catalog 3000 cartB) = 0
  /\ total (clear catalog 3000 cartB) = 0
  /\ discount (clear catalog 3000 cartB) = None
  /\ shipping (clear catalog 3000 cartB) = 5.99
  /\ ~ totals_consistent (clear catalog 3000 cartB).
Proof.
  apply (clear_leaves_shipping_charged catalog 3000 cartB). left. discriminate.
Defined.

(** C8, as stated, fails: a fixed coupon of magnitude -5 yields the
    discount -5. *)
Lemma fixed_discount_floor_law_fails : ~ fixed_discount_floor_law.
Proof.
  intros Hlaw. destruct (Hlaw 60 surcharge eq_refl) as [di [Hdi Hfloor]].
  injection Hdi as Hdi. subst di. vm_compute in Hfloor.
  apply Hfloor. reflexivity.
Qed.

(** C8, amended: the discount of a percentage coupon is
    [subtotal * coupon.discount / 100], whatever its magnitude; that of
    every other kind is [coupon.discount] itself, with neither a floor
    nor a cap: it is not negative when [coupon.discount] is not negative
    (what the validation of the coupon route admits), and it exceeds the
    subtotal exactly when [coupon.discount] does.  The cart stores that
    amount as its discount. *)
Theorem computeDiscount_by_kind (sub : Q) (cp : Coupon.t) :
  (Coupon.type cp = "percentage" ->
   computeDiscount sub (Some cp) = Some (sub * Coupon.discount cp / 100))
  /\ (Coupon.type cp <> "percentage" ->
      computeDiscount sub (Some cp) = Some (Coupon.discount cp)
      /\ (sub < Coupon.discount cp ->
          exists di : Q, computeDiscount sub (Some cp) = Some di /\ sub < di))
  /\ (Coupon.type cp = "fixed" -> 0 <= Coupon.discount cp ->
      exists di : Q, computeDiscount sub (Some cp) = Some di /\ 0 <= di)
  /\ (forall (db : Product.Collection) (c : t),
        discount (calculateTotals db (set_coupon c (Some cp)))
        = computeDiscount
            (subtotal (calculateTotals db (set_coupon c (Some cp))))
            (Some cp))
  /\ computeDiscount 3 (Some fiveOff) = Some 5
  /\ computeDiscount 60 (Some minusTen) = Some (60 * -10 / 100).
Proof.
  split; [| split; [| split; [| split; [| split]]]].
  - intros Hkind. unfold computeDiscount. rewrite Hkind. reflexivity.
  - intros Hkind. unfold computeDiscount.
    destruct (String.eqb_spec (Coupon.type cp) "percentage") as [Heq | Hne];
      [contradiction |].
    split; [reflexivity |].
    intros Hover. exists (Coupon.discount cp). split; [reflexivity | exact Hover].
  - intros Hkind Hmagnitude. unfold computeDiscount. rewrite Hkind.
    exists (Coupon.discount cp). split; [reflexivity | exact Hmagnitude].
  - intros db c. reflexivity.
  - reflexivity.
  - reflexivity.
Qed.



End CartOperations.

(** ** Line identity *)
Section UpdateFirst.

Import Cart.

Variable f : Item -> bool.

Lemma existsb_true_filter (l : list Item) :
  existsb f l = true -> exists x r, filter f l = x :: r.
Proof.
  induction l as [| x l IH]; simpl; [discriminate |].
  destruct (f x); simpl; eauto.
Qed.

Lemma update_first_length (g : Item -> Item) (l : list Item) :
  length (update_first f g l) = length l.
Proof.
  induction l as [| x l IH]; simpl; [reflexivity |].
  destruct (f x); simpl; auto.
Qed.

Lemma filter_update_first (g : Item -> Item) (l : list Item) :
  (forall x, f (g x) = f x) ->
  filter f (update_first f g l)
  = match filter f l with [] => [] | x :: r => g x :: r end.
Proof.
  intros Hg. induction l as [| x l IH]; simpl; [reflexivity |].
  destruct (f x) eqn:Hx; simpl.
  - rewrite Hg, Hx. reflexivity.
  - rewrite Hx. exact IH.
Qed.

End UpdateFirst.

Section LineIdentity.

Import Cart.

Variable db : Product.Collection.
Variables (productId : string) (v : option Variant).

Lemma items_addItem (now q : Z) (c : t) :
  items (addItem db now productId (Some q) v c)
  = if existsb (sameLine productId v) (items c)
    then update_first (sameLine productId v) (bump q now) (items c)
    else items c ++ [mkItem productId q (castVariant v) now now].
Proof.
  unfold addItem. rewrite items_save. simpl.
  destruct (existsb _ (items c)); reflexivity.
Qed.

Lemma coupon_addItem (now : Z) (q : option Z) (c : t) :
  coupon (addItem db now productId q v c) = coupon c.
Proof. unfold addItem. rewrite coupon_save. reflexivity. Qed.

Lemma shippingMethod_addItem (now : Z) (q : option Z) (c : t) :
  shippingMethod (addItem db now productId q v c) = shippingMethod c.
Proof. unfold addItem. rewrite shippingMethod_save. reflexivity. Qed.

Lemma isCast_castVariant : isCast (castVariant v) = true.
Proof. destruct v; reflexivity. Qed.

Lemma sameLine_stored (q a b : Z) :
  sameLine productId (castVariant v)
    (mkItem productId q (castVariant v) a b) = true.
Proof.
  unfold sameLine. cbn [product variant].
  rewrite String.eqb_refl, variant_eqb_refl. reflexivity.
Qed.

(** A stored line never matches a variant that comes without its
    [priceAdjustment]. *)
Lemma sameLine_uncast (x : Variant) (it : Item) :
  priceAdjustment x = None -> isCast (variant it) = true ->
  sameLine productId (Some x) it = false.
Proof.
  intros Hx Hcast. unfold sameLine, variant_eqb.
  destruct (variant it) as [y |]; simpl.
  - simpl in Hcast. rewrite Hx.
    destruct (priceAdjustment y); [| discriminate Hcast].
    simpl. rewrite !andb_false_r. reflexivity.
  - apply andb_false_r.
Qed.

Lemma existsb_uncast (x : Variant) (l : list Item) :
  priceAdjustment x = None ->
  Forall (fun it => isCast (variant it) = true) l ->
  existsb (sameLine productId (Some x)) l = false.
Proof.
  intros Hx Hl. induction Hl as [| it l Hit Hl IH]; simpl; [reflexivity |].
  rewrite (sameLine_uncast x it Hx Hit). exact IH.
Qed.

End LineIdentity.

(** C4, on the code: a variant named by a request without its
    [priceAdjustment] is stored with [priceAdjustment: 0], so the text of
    the stored variant differs from the text of the same variant in the
    next request.  Two [addItem] calls for the same product and such a
    variant, with quantities [q1] and [q2], each append a line: the cart
    ends with two lines of one stored identity, holding [q1] and [q2],
    instead of one line holding [q1 + q2].  The resulting document passes
    the validation of the schema when the cart did and both quantities
    are at least one. *)
Theorem addItem_twice_appends_two_lines (db : Product.Collection)
  (now1 now2 : Z) (productId : string) (x : Cart.Variant) (q1 q2 : Z)
  (c : Cart.t) :
  Cart.priceAdjustment x = None ->
  storedVariants c ->
  let stored := Cart.castVariant (Some x) in
  let c1 := Cart.addItem db now1 productId (Some q1) (Some x) c in
  let c2 := Cart.addItem db now2 productId (Some q2) (Some x) c1 in
  Cart.items c2
  = Cart.items c
    ++ [Cart.mkItem productId q1 stored now1 now1;
        Cart.mkItem productId q2 stored now2 now2]
  /\ linesOf productId stored c2
     = linesOf productId stored c
       ++ [Cart.mkItem productId q1 stored now1 now1;
           Cart.mkItem productId q2 stored now2 now2]
  /\ (2 <= length (linesOf productId stored c2))%nat
  /\ storedVariants c2
  /\ (Cart.validates c = true -> 1 <= q1 -> 1 <= q2 ->
      Cart.validates c2 = true).
Proof.
  intros Hx Hstored stored c1 c2.
  assert (Hitems1 :
    Cart.items c1
    = Cart.items c ++ [Cart.mkItem productId q1 stored now1 now1]).
  { subst c1. rewrite items_addItem.
    rewrite (existsb_uncast productId x _ Hx Hstored). reflexivity. }
  assert (Hstored1 : storedVariants c1).
  { unfold storedVariants. rewrite Hitems1. apply Forall_app. split.
    - exact Hstored.
    - constructor; [| constructor]. reflexivity. }
  assert (Hitems2 :
    Cart.items c2
    = Cart.items c
      ++ [Cart.mkItem productId q1 stored now1 now1;
          Cart.mkItem productId q2 stored now2 now2]).
  { subst c2. rewrite items_addItem.
    rewrite (existsb_uncast productId x _ Hx Hstored1).
    rewrite Hitems1, <- app_assoc. reflexivity. }
  assert (Hlines :
    linesOf productId stored c2
    = linesOf productId stored c
      ++ [Cart.mkItem productId q1 stored now1 now1;
          Cart.mkItem productId q2 stored now2 now2]).
  { unfold linesOf. rewrite Hitems2, filter_app. f_equal.
    cbn [filter]. subst stored.
    rewrite !(sameLine_stored productId (Some x)). reflexivity. }
  split; [exact Hitems2 |].
  split; [exact Hlines |].
  split; [rewrite Hlines, length_app; simpl; lia |].
  split.
  - unfold storedVariants. rewrite Hitems2. apply Forall_app. split.
    + exact Hstored.
    + constructor; [| constructor; [| constructor]]; reflexivity.
  - intros Hvalid Hq1 Hq2. unfold Cart.validates in *.
    subst c2 c1. rewrite Hitems2, !coupon_addItem, !shippingMethod_addItem.
    apply andb_prop in Hvalid. destruct Hvalid as [Hvalid Hmethod].
    apply andb_prop in Hvalid. destruct Hvalid as [Hlinesvalid Hcoupon].
    rewrite Hcoupon, Hmethod, forallb_app, Hlinesvalid. cbn [forallb].
    cbn [Cart.quantity].
    replace (1 <=? q1) with true by (symmetry; apply Z.leb_le; exact Hq1).
    replace (1 <=? q2) with true by (symmetry; apply Z.leb_le; exact Hq2).
    reflexivity.
Qed.

Lemma addItem_twice_appends_two_lines_witness :
  Cart.items
    (Cart.addItem catalog 2000 "p1" (Some 3) (Some sizeL)
       (Cart.addItem catalog 1000 "p1" (Some 2) (Some sizeL)
          (Cart.create "alice" 0)))
  = [Cart.mkItem "p1" 2 (Cart.castVariant (Some sizeL)) 1000 1000;
     Cart.mkItem "p1" 3 (Cart.castVariant (Some sizeL)) 2000 2000].
Proof.
  exact (proj1 (addItem_twice_appends_two_lines catalog 1000 2000 "p1" sizeL
                  2 3 (Cart.create "alice" 0) eq_refl
                  (Forall_nil _))).
Defined.

(** ** Checkout *)
Section CheckoutThrows.

Import Checkout.

(** Over the products [validateStock] has populated, the map of the order
    items throws on the first line. *)
Lemma orderItems_forStock (db : Product.Collection) (l : list Cart.Item) :
  l <> [] -> orderItems forStock db l = None.
Proof.
  destruct l as [| item l]; [contradiction |]. intros _. simpl.
  unfold orderItem.
  destruct (Product.findById db (Cart.product item)); reflexivity.
Qed.

Lemma buildOrder_forStock (db : Product.Collection) (req : Request)
  (cart : Cart.t) :
  Cart.items cart <> [] -> buildOrder forStock db req cart = None.
Proof.
  intros Hlines. unfold buildOrder.
  rewrite orderItems_forStock by exact Hlines. reflexivity.
Qed.

Lemma nonempty_items (cart : Cart.t) :
  Nat.eqb (length (Cart.items cart)) 0 = false -> Cart.items cart <> [].
Proof. intros Hlen Hnil. rewrite Hnil in Hlen. discriminate Hlen. Qed.

Lemma createOrder_store (now : Z) (req : Request) (s : Store) :
  snd (createOrder now req s) = s.
Proof.
  unfold createOrder.
  destruct (findCart (carts s) (user req)) as [cart |]; [| reflexivity].
  destruct (Nat.eqb (length (Cart.items cart)) 0) eqn:Hempty; [reflexivity |].
  destruct (negb (Cart.isValid (Cart.validateStock (products s) cart)));
    [reflexivity |].
  rewrite buildOrder_forStock by (apply nonempty_items; exact Hempty).
  reflexivity.
Qed.

Lemma createOrder_never_creates (now : Z) (req : Request) (s : Store)
  (o : Order.t) :
  fst (createOrder now req s) <> Created o.
Proof.
  unfold createOrder.
  destruct (findCart (carts s) (user req)) as [cart |]; [| discriminate].
  destruct (Nat.eqb (length (Cart.items cart)) 0) eqn:Hempty; [discriminate |].
  destruct (negb (Cart.isValid (Cart.validateStock (products s) cart)));
    [discriminate |].
  rewrite buildOrder_forStock by (apply nonempty_items; exact Hempty).
  discriminate.
Qed.

(** C1, on the code: for every cart that has a line and passes stock
    validation the checkout computes no totals at all.  [validateStock]
    has populated the lines with products that carry neither [images] nor
    [price]; the map that builds the order items throws on the first
    line, and the request ends with that error, no order and an unchanged
    store. *)
Theorem createOrder_throws_on_valid_cart (now : Z) (req : Request)
  (s : Store) (cart : Cart.t) :
  findCart (carts s) (user req) = Some cart ->
  Cart.items cart <> [] ->
  Cart.isValid (Cart.validateStock (products s) cart) = true ->
  createOrder now req s = (InternalError, s).
Proof.
  intros Hcart Hlines Hvalid. unfold createOrder. rewrite Hcart, Hvalid.
  destruct (Cart.items cart) as [| item l] eqn:Hitems; [contradiction |].
  cbn [length Nat.eqb negb].
  rewrite buildOrder_forStock by (rewrite Hitems; discriminate).
  reflexivity.
Qed.

Lemma createOrder_throws_on_valid_cart_witness :
  createOrder 5000 (plainCheckout "alice") storeB = (InternalError, storeB).
Proof.
  apply (createOrder_throws_on_valid_cart 5000 (plainCheckout "alice") storeB
           cartB).
  - reflexivity.
  - discriminate.
  - reflexivity.
Defined.

End CheckoutThrows.

Section CheckoutSteps.

Import Checkout.

Variables (now : Z) (reqL reqR : Request).

(** The first step of the stepwise handler is the whole of [createOrder]:
    it answers and leaves the store as it is. *)
Lemma step_start (req : Request) (s : Store) :
  step now req s Start = (s, Responded (fst (createOrder now req s))).
Proof.
  unfold step, createOrder.
  destruct (findCart (carts s) (user req)) as [cart |]; [| reflexivity].
  destruct (Nat.eqb (length (Cart.items cart)) 0) eqn:Hempty; [reflexivity |].
  destruct (negb (Cart.isValid (Cart.validateStock (products s) cart)));
    [reflexivity |].
  rewrite buildOrder_forStock by (apply nonempty_items; exact Hempty).
  reflexivity.
Qed.

Lemma step_wroteNothing (req : Request) (s : Store) (h : Handler) :
  wroteNothing h = true ->
  fst (step now req s h) = s /\ wroteNothing (snd (step now req s h)) = true.
Proof.
  intros Hh. destruct h; try discriminate Hh.
  - rewrite step_start. split; [reflexivity |]. cbn [snd wroteNothing].
    destruct (fst (createOrder now req s)) as [| issues | o |] eqn:Hresponse;
      try reflexivity.
    exfalso. exact (createOrder_never_creates now req s o Hresponse).
  - split; [reflexivity | exact Hh].
Qed.

Lemma run_wroteNothing (schedule : list bool) :
  forall sys : System,
    wroteNothing (left sys) = true -> wroteNothing (right sys) = true ->
    store (run now reqL reqR schedule sys) = store sys
    /\ wroteNothing (left (run now reqL reqR schedule sys)) = true
    /\ wroteNothing (right (run now reqL reqR schedule sys)) = true.
Proof.
  induction schedule as [| who schedule IH]; intros sys Hl Hr.
  - repeat split; assumption.
  - unfold run. cbn [fold_left]. fold (run now reqL reqR schedule).
    destruct who; unfold turn.
    + destruct (step_wroteNothing reqL (store sys) (left sys) Hl)
        as [Hstore Hleft].
      destruct (step now reqL (store sys) (left sys)) as [s' h'].
      cbn [fst snd] in Hstore, Hleft. subst s'.
      exact (IH (mkSystem (store sys) h' (right sys)) Hleft Hr).
    + destruct (step_wroteNothing reqR (store sys) (right sys) Hr)
        as [Hstore Hright].
      destruct (step now reqR (store sys) (right sys)) as [s' h'].
      cbn [fst snd] in Hstore, Hright. subst s'.
      exact (IH (mkSystem (store sys) (left sys) h') Hl Hright).
Qed.

Lemma wroteNothing_not_succeeded (h : Handler) :
  wroteNothing h = true -> succeeded h = false.
Proof.
  destruct h as [| | | | | r]; try reflexivity.
  destruct r; try reflexivity. discriminate.
Qed.

End CheckoutSteps.

(** C2, on the code: with one unit left and no backorders, neither of the
    two checkouts succeeds, in whatever order their steps are taken.
    Both carts pass the stock validation, both requests then throw while
    the order items are built, no order is stored and the quantity stays
    at 1: in no schedule does a request answer with an order or write to
    the store, and both in the racing schedule and one after the other
    the two requests end with the error. *)
Theorem concurrent_checkouts_both_fail :
  (forall schedule : list bool,
     Checkout.store (runC schedule) = Checkout.store scenarioC
     /\ Checkout.succeeded (Checkout.left (runC schedule)) = false
     /\ Checkout.succeeded (Checkout.right (runC schedule)) = false)
  /\ Cart.isValid (Cart.validateStock [scarce] (cartOf "alice")) = true
  /\ Cart.isValid (Cart.validateStock [scarce] (cartOf "bob")) = true
  /\ Checkout.left (runC racing) = Checkout.Responded Checkout.InternalError
  /\ Checkout.right (runC racing) = Checkout.Responded Checkout.InternalError
  /\ Checkout.left (runC oneAfterTheOther)
     = Checkout.Responded Checkout.InternalError
  /\ Checkout.right (runC oneAfterTheOther)
     = Checkout.Responded Checkout.InternalError
  /\ Checkout.orders (Checkout.store (runC racing)) = []
  /\ stockOf (runC racing) "p3" = Some 1
  /\ Checkout.orders (Checkout.store (runC oneAfterTheOther)) = []
  /\ stockOf (runC oneAfterTheOther) "p3" = Some 1
  /\ forallb
       (fun schedule =>
          negb (Checkout.succeeded (Checkout.left (runC schedule)))
          && negb (Checkout.succeeded (Checkout.right (runC schedule)))
          && negb (Checkout.rejectedForStock (Checkout.left (runC schedule)))
          && negb (Checkout.rejectedForStock (Checkout.right (runC schedule)))
          && match stockOf (runC schedule) "p3" with
             | Some 1 => true
             | _ => false
             end)
       (schedules 12)
     = true.
Proof.
  split.
  - intros schedule. unfold runC.
    destruct (run_wroteNothing 5000 (plainCheckout "alice")
                (plainCheckout "bob") schedule scenarioC eq_refl eq_refl)
      as [Hstore [Hleft Hright]].
    split; [exact Hstore |].
    split; apply wroteNothing_not_succeeded; assumption.
  - repeat split; vm_compute; reflexivity.
Qed.

(** ** Order lifecycle *)
Section Returns.

Import Order.

Lemma whole_days_within (now d : Z) :
  ((now - d) / msPerDay <=? 30) = true <-> now - d < 31 * msPerDay.
Proof.
  rewrite Z.leb_le. unfold msPerDay.
  split; intros H; Z.div_mod_to_equations; lia.
Qed.

(** C9, as stated, fails: a delivered order is still returnable one
    millisecond after the thirtieth day has elapsed. *)
Lemma return_window_law_fails : ~ return_window_law.
Proof.
  intros Hlaw.
  destruct (Hlaw (30 * msPerDay + 1) 0 (deliveredOrder 0) eq_refl)
    as [Hwithin _].
  destruct (Hwithin eq_refl) as [_ Hle]. vm_compute in Hle.
  apply Hle. reflexivity.
Qed.

(** C9, amended: [canBeReturned] counts whole elapsed days.  It answers
    true exactly when the order is delivered, has a delivery date, and
    fewer than 31 days have elapsed since it (the floor of the elapsed
    days is at most 30); it answers false for every other status, and for
    a delivered order from the instant 31 days have elapsed. *)
Theorem canBeReturned_whole_days (now : Z) (o : t) :
  (canBeReturned now o = Some true
   <-> status o = delivered
       /\ exists d, deliveredAt o = Some d /\ now - d < 31 * msPerDay)
  /\ canBeReturned now o
     = (if status_eqb (status o) delivered then
          match deliveredAt o with
          | Some d => Some (now - d <? 31 * msPerDay)
          | None => None
          end
        else Some false).
Proof.
  unfold canBeReturned. split.
  - destruct (status o); simpl;
      try (split; [discriminate | intros [Hs _]; discriminate Hs]).
    destruct (deliveredAt o) as [d |].
    + split.
      * intros Hret. injection Hret as Hret.
        split; [reflexivity |]. exists d. split; [reflexivity |].
        apply whole_days_within. exact Hret.
      * intros [_ (d' & Hd & Hlt)]. injection Hd as <-.
        f_equal. apply whole_days_within. exact Hlt.
    + split; [discriminate |]. intros [_ (d' & Hd & _)]. discriminate Hd.
  - destruct (status_eqb (status o) delivered); simpl; [| reflexivity].
    destruct (deliveredAt o) as [d |]; [| reflexivity].
    f_equal. apply eq_true_iff_eq.
    rewrite whole_days_within, Z.ltb_lt. reflexivity.
Qed.

End Returns.

(** * Further properties *)

(** ** Stock checks and stock updates *)
Section StockChecks.

Import Product.

(** X1: when [checkStock] accepts a quantity on a product that tracks
    stock and takes no backorders, the decrease by that quantity is exact
    (nothing is clamped), leaves a quantity of at least zero, and the
    increase by the same quantity restores the starting stock. *)
Theorem accepted_decrease_is_exact (p : t) (qty : Z) :
  trackQuantity (inventory p) = true ->
  allowBackorders (inventory p) = false ->
  available (checkStock p qty) = true ->
  stock (decrease p qty) = stock p - qty
  /\ 0 <= stock (decrease p qty)
  /\ stock (increase (decrease p qty) qty) = stock p.
Proof.
  intros Htrack Hback Havailable.
  assert (Hle : qty <= stock p).
  { unfold checkStock in Havailable. rewrite Htrack, Hback in Havailable.
    simpl in Havailable. unfold stock.
    destruct (quantity (inventory p) >=? qty) eqn:Hge;
      [| discriminate Havailable].
    apply Z.geb_le in Hge. exact Hge. }
  rewrite increase_quantity
    by (rewrite decrease_keeps_tracking; exact Htrack).
  rewrite decrease_quantity by exact Htrack.
  lia.
Qed.

Lemma accepted_decrease_is_exact_witness :
  stock (decrease widget 4) = stock widget - 4
  /\ 0 <= stock (decrease widget 4)
  /\ stock (increase (decrease widget 4) 4) = stock widget.
Proof.
  apply (accepted_decrease_is_exact widget 4); reflexivity.
Defined.

(** X2: [checkStock] refuses a quantity exactly when the product tracks
    stock, takes no backorders and holds fewer units than asked; the
    refusal reports the units held, an acceptance reports none; and a
    product that accepts a quantity accepts every smaller one. *)
Theorem checkStock_refusal (p : t) (qty : Z) :
  (available (checkStock p qty) = false
   <-> trackQuantity (inventory p) = true
       /\ allowBackorders (inventory p) = false
       /\ stock p < qty)
  /\ availableQuantity (checkStock p qty)
     = (if available (checkStock p qty) then None else Some (stock p))
  /\ (if available (checkStock p qty) then True
      else message (checkStock p qty) = OnlyItemsAvailable (stock p))
  /\ forall smaller : Z,
       smaller <= qty -> available (checkStock p qty) = true ->
       available (checkStock p smaller) = true.
Proof.
  unfold checkStock, stock.
  destruct (trackQuantity (inventory p)); simpl.
  2: { repeat split; auto; try discriminate. intros (H & _); discriminate H. }
  destruct (allowBackorders (inventory p)); simpl.
  { repeat split; auto; try discriminate.
    intros (_ & H & _); discriminate H. }
  destruct (quantity (inventory p) >=? qty) eqn:Hge; simpl.
  - apply Z.geb_le in Hge. repeat split; try discriminate; try lia.
    intros smaller Hsmaller _.
    destruct (quantity (inventory p) >=? smaller) eqn:Hge'; simpl; auto.
    rewrite Z.geb_leb in Hge'. apply Z.leb_gt in Hge'. lia.
  - rewrite Z.geb_leb in Hge. apply Z.leb_gt in Hge.
    repeat split; auto. discriminate.
Qed.


End StockChecks.

Section DiscountPercentage.

Import ProductMethods.
Local Open Scope Q_scope.

Lemma round_between (x : Q) (lo hi : Z) :
  inject_Z lo <= x -> x <= inject_Z hi -> (lo <= round x <= hi)%Z.
Proof.
  intros Hlo Hhi. unfold round. split.
  - rewrite <- (Qfloor_Z lo). apply Qfloor_resp_le. lra.
  - apply Z.lt_succ_r. apply Z.le_succ_l.
    assert (Hlt : x + (1 # 2) < inject_Z (hi + 1)).
    { rewrite inject_Z_plus. change (inject_Z 1) with 1. lra. }
    assert (Hfl : inject_Z (Qfloor (x + (1 # 2))) <= x + (1 # 2))
      by apply Qfloor_le.
    assert (Hz : inject_Z (Qfloor (x + (1 # 2))) < inject_Z (hi + 1)) by lra.
    rewrite <- Zlt_Qlt in Hz. lia.
Qed.

(** X4: for a price of at least zero, [discountPercentage] is a whole
    number between 0 and 100, and it is 0 when there is no
    [compareAtPrice] or when it does not exceed the price. *)
Theorem discountPercentage_bounds (price : Q) (compareAtPrice : option Q) :
  0 <= price ->
  (0 <= discountPercentage price compareAtPrice <= 100)%Z
  /\ discountPercentage price None = 0%Z
  /\ forall cap : Q, cap <= price -> discountPercentage price (Some cap) = 0%Z.
Proof.
  intros Hprice. split; [| split].
  - unfold discountPercentage.
    destruct compareAtPrice as [cap |]; [| lia].
    destruct (Qeq_bool cap 0); simpl; [lia |].
    destruct (Qle_bool cap price) eqn:Hle; simpl; [lia |].
    assert (Hlt : price < cap).
    { apply Qnot_le_lt. intros H. apply Qle_bool_iff in H.
      rewrite H in Hle. discriminate Hle. }
    assert (Hcap : 0 < cap) by lra.
    apply (round_between _ 0 100).
    + apply Qmult_le_0_compat; [| lra].
      apply Qle_shift_div_l; [exact Hcap | lra].
    + assert (Hfrac : (cap - price) / cap <= 1).
      { apply Qle_shift_div_r; [exact Hcap | lra]. }
      change (inject_Z 100) with 100. lra.
  - reflexivity.
  - intros cap Hcap. unfold discountPercentage.
    apply Qle_bool_iff in Hcap. rewrite Hcap.
    rewrite andb_false_r. reflexivity.
Qed.

Lemma discountPercentage_bounds_witness :
  (0 <= discountPercentage 15 (Some 20%Q) <= 100)%Z
  /\ discountPercentage 15 None = 0%Z
  /\ forall cap : Q, cap <= 15 -> discountPercentage 15 (Some cap) = 0%Z.
Proof.
  apply (discountPercentage_bounds 15 (Some 20%Q)). vm_compute. discriminate.
Defined.

End DiscountPercentage.

(** ** Slug of a product name *)
Section Slug.

Import ProductMethods.

Local Arguments Ascii.eqb : simpl never.

Lemma dash_not_alnum : isLowerOrDigit dash = false.
Proof. reflexivity. Qed.

Lemma alnum_not_dash (c : ascii) :
  isLowerOrDigit c = true -> Ascii.eqb c dash = false.
Proof.
  intros Hc. destruct (Ascii.eqb c dash) eqn:Heq; [| reflexivity].
  apply Ascii.eqb_eq in Heq. subst c. discriminate Hc.
Qed.

Lemma dashRuns_chars (inRun : bool) (s : list ascii) :
  forallb slugChar (dashRuns inRun s) = true.
Proof.
  revert inRun. induction s as [| c s IH]; intros inRun; simpl.
  - reflexivity.
  - destruct (isLowerOrDigit c) eqn:Hc; simpl.
    + unfold slugChar at 1. rewrite Hc. simpl. apply IH.
    + destruct inRun; simpl; apply IH.
Qed.

Lemma dashRuns_in_run (s : list ascii) :
  startsWithDash (dashRuns true s) = false.
Proof.
  induction s as [| c s IH]; simpl; [reflexivity |].
  destruct (isLowerOrDigit c) eqn:Hc; simpl.
  - apply alnum_not_dash. exact Hc.
  - exact IH.
Qed.

Lemma dashRuns_single (inRun : bool) (s : list ascii) :
  noDoubleDash (dashRuns inRun s) = true.
Proof.
  revert inRun. induction s as [| c s IH]; intros inRun; simpl.
  - reflexivity.
  - destruct (isLowerOrDigit c) eqn:Hc; simpl.
    + rewrite (alnum_not_dash c Hc). simpl. apply IH.
    + destruct inRun; simpl; [apply IH |].
      rewrite dashRuns_in_run. simpl. apply IH.
Qed.

Lemma dropLeading_keeps (l : list ascii) :
  forallb slugChar l = true -> noDoubleDash l = true ->
  forallb slugChar (dropLeading l) = true
  /\ noDoubleDash (dropLeading l) = true
  /\ startsWithDash (dropLeading l) = false.
Proof.
  destruct l as [| c l]; simpl; [auto |].
  intros Hchars Hsingle.
  apply andb_true_iff in Hchars. destruct Hchars as [Hc Hchars].
  apply andb_true_iff in Hsingle. destruct Hsingle as [Hpair Hsingle].
  destruct (Ascii.eqb c dash) eqn:Hdash; simpl in *.
  - repeat split; auto.
    destruct (startsWithDash l); [discriminate Hpair | reflexivity].
  - rewrite Hc, Hchars, Hsingle, Hdash. auto.
Qed.

Lemma dropTrailing_chars (l : list ascii) :
  forallb slugChar l = true -> forallb slugChar (dropTrailing l) = true.
Proof.
  induction l as [| c l IH]; [auto |].
  intros Hchars. simpl in Hchars.
  apply andb_true_iff in Hchars. destruct Hchars as [Hc Hchars].
  destruct l as [| d m].
  - simpl. destruct (Ascii.eqb c dash); simpl; [| rewrite Hc]; reflexivity.
  - change (dropTrailing (c :: d :: m)) with (c :: dropTrailing (d :: m)).
    simpl forallb. rewrite Hc. simpl. apply IH. exact Hchars.
Qed.

Lemma dropTrailing_start (l : list ascii) :
  startsWithDash l = false -> startsWithDash (dropTrailing l) = false.
Proof.
  destruct l as [| c [| d m]]; simpl; auto.
  intros Hc. rewrite Hc. simpl. exact Hc.
Qed.

Lemma dropTrailing_single (l : list ascii) :
  noDoubleDash l = true -> noDoubleDash (dropTrailing l) = true.
Proof.
  induction l as [| c l IH]; [auto |].
  intros Hsingle. simpl in Hsingle.
  apply andb_true_iff in Hsingle. destruct Hsingle as [Hpair Hsingle].
  destruct l as [| d m].
  - simpl. destruct (Ascii.eqb c dash); simpl; [| rewrite andb_false_r];
      reflexivity.
  - change (dropTrailing (c :: d :: m)) with (c :: dropTrailing (d :: m)).
    change (noDoubleDash (c :: dropTrailing (d :: m)))
      with (negb (Ascii.eqb c dash
                  && startsWithDash (dropTrailing (d :: m)))
            && noDoubleDash (dropTrailing (d :: m))).
    rewrite (IH Hsingle), andb_true_r.
    destruct (Ascii.eqb c dash) eqn:Hc; [| reflexivity].
    rewrite dropTrailing_start; [reflexivity |].
    destruct (startsWithDash (d :: m)); [discriminate Hpair | reflexivity].
Qed.

Lemma dropTrailing_end (l : list ascii) :
  noDoubleDash l = true -> endsWithDash (dropTrailing l) = false.
Proof.
  induction l as [| c l IH]; [auto |].
  intros Hsingle. simpl in Hsingle.
  apply andb_true_iff in Hsingle. destruct Hsingle as [Hpair Hsingle].
  destruct l as [| d m].
  - simpl. destruct (Ascii.eqb c dash) eqn:Hc; simpl; [| rewrite Hc];
      reflexivity.
  - specialize (IH Hsingle).
    change (dropTrailing (c :: d :: m)) with (c :: dropTrailing (d :: m)).
    destruct m as [| e m].
    + simpl in *. destruct (Ascii.eqb d dash) eqn:Hd; simpl.
      * rewrite andb_true_r in Hpair.
        destruct (Ascii.eqb c dash); [discriminate Hpair | reflexivity].
      * exact Hd.
    + change (dropTrailing (d :: e :: m)) with (d :: dropTrailing (e :: m))
        in *.
      exact IH.
Qed.

Lemma slugify_well_formed (name : list ascii) :
  wellFormedSlug (slugify name) = true.
Proof.
  unfold slugify, wellFormedSlug.
  destruct (dropLeading_keeps (dashRuns false (toLowerCase name))
              (dashRuns_chars _ _) (dashRuns_single _ _))
    as (Hchars & Hsingle & Hstart).
  rewrite (dropTrailing_chars _ Hchars), (dropTrailing_single _ Hsingle),
    (dropTrailing_start _ Hstart), (dropTrailing_end _ Hsingle).
  reflexivity.
Qed.

Lemma slugChar_not_upper (c : ascii) : slugChar c = true -> isUpper c = false.
Proof.
  destruct c as [[] [] [] [] [] [] [] []]; intros Hc;
    try reflexivity; discriminate Hc.
Qed.

Lemma toLowerCase_slug (l : list ascii) :
  forallb slugChar l = true -> toLowerCase l = l.
Proof.
  induction l as [| c l IH]; [auto |].
  intros Hchars. simpl in Hchars.
  apply andb_true_iff in Hchars. destruct Hchars as [Hc Hchars].
  simpl. rewrite (slugChar_not_upper c Hc). f_equal. apply IH. exact Hchars.
Qed.

Lemma dashRuns_slug (l : list ascii) :
  forallb slugChar l = true -> noDoubleDash l = true ->
  dashRuns false l = l
  /\ (startsWithDash l = false -> dashRuns true l = l).
Proof.
  induction l as [| c l IH]; [auto |].
  intros Hchars Hsingle. simpl in Hchars, Hsingle.
  apply andb_true_iff in Hchars. destruct Hchars as [Hc Hchars].
  apply andb_true_iff in Hsingle. destruct Hsingle as [Hpair Hsingle].
  destruct (IH Hchars Hsingle) as [Hout Hin].
  simpl. destruct (isLowerOrDigit c) eqn:Halnum.
  - rewrite Hout. auto.
  - unfold slugChar in Hc. rewrite Halnum in Hc. simpl in Hc.
    rewrite Hc in Hpair. simpl in Hpair.
    apply Ascii.eqb_eq in Hc. subst c. split.
    + rewrite Hin; [reflexivity |].
      destruct (startsWithDash l); [discriminate Hpair | reflexivity].
    + discriminate.
Qed.

Lemma dropTrailing_slug (l : list ascii) :
  endsWithDash l = false -> dropTrailing l = l.
Proof.
  induction l as [| c l IH]; [auto |].
  destruct l as [| d m]; intros Hend.
  - simpl in *. rewrite Hend. reflexivity.
  - change (dropTrailing (c :: d :: m)) with (c :: dropTrailing (d :: m)).
    f_equal. apply IH. exact Hend.
Qed.

Lemma slugify_fixes_slugs (l : list ascii) :
  wellFormedSlug l = true -> slugify l = l.
Proof.
  unfold wellFormedSlug. intros Hwell.
  apply andb_true_iff in Hwell. destruct Hwell as [Hwell Hend].
  apply andb_true_iff in Hwell. destruct Hwell as [Hwell Hstart].
  apply andb_true_iff in Hwell. destruct Hwell as [Hchars Hsingle].
  apply negb_true_iff in Hend, Hstart.
  unfold slugify. rewrite (toLowerCase_slug l Hchars).
  rewrite (proj1 (dashRuns_slug l Hchars Hsingle)).
  assert (Hlead : dropLeading l = l).
  { destruct l as [| c l]; [reflexivity |]. simpl in *.
    rewrite Hstart. reflexivity. }
  rewrite Hlead. apply dropTrailing_slug. exact Hend.
Qed.

(** X5: the slug derived from an ASCII name consists of lower-case
    letters, digits and dashes, with no two dashes in a row and no dash at
    either end; slugs of that form are exactly the names the derivation
    leaves unchanged, so deriving a slug from a slug gives it back. *)
Theorem slugify_normal_form (name : list ascii) :
  isAscii name ->
  wellFormedSlug (slugify name) = true
  /\ slugify (slugify name) = slugify name
  /\ (slugify name = name <-> wellFormedSlug name = true).
Proof.
  intros _. split; [apply slugify_well_formed |].
  split; [apply slugify_fixes_slugs, slugify_well_formed |].
  split.
  - intros Hfix. rewrite <- Hfix. apply slugify_well_formed.
  - apply slugify_fixes_slugs.
Qed.

Lemma slugify_normal_form_witness :
  wellFormedSlug (slugify (list_ascii_of_string "  Red Shoes (2025)! "))
  = true
  /\ slugify (slugify (list_ascii_of_string "  Red Shoes (2025)! "))
     = slugify (list_ascii_of_string "  Red Shoes (2025)! ")
  /\ (slugify (list_ascii_of_string "  Red Shoes (2025)! ")
      = list_ascii_of_string "  Red Shoes (2025)! "
      <-> wellFormedSlug (list_ascii_of_string "  Red Shoes (2025)! ")
          = true).
Proof.
  apply (slugify_normal_form (list_ascii_of_string "  Red Shoes (2025)! ")).
  unfold isAscii. repeat constructor.
Defined.

Example slugify_red_shoes :
  slugify (list_ascii_of_string "  Red Shoes (2025)! ")
  = list_ascii_of_string "red-shoes-2025".
Proof. reflexivity. Qed.

End Slug.

(** ** Rating summary *)
Section RatingSummary.

Import ProductMethods.
Local Open Scope Q_scope.

Lemma total_rating_bounds (l : list Review) :
  Forall wholeStars l ->
  forall acc : Q,
    acc + inject_Z (Z.of_nat (length l))
    <= fold_left (fun sum review => sum + rating review) l acc
    /\ fold_left (fun sum review => sum + rating review) l acc
       <= acc + 5 * inject_Z (Z.of_nat (length l)).
Proof.
  induction 1 as [| r l (k & Hrange & Hk) _ IH]; intros acc.
  - simpl. change (inject_Z 0) with 0. split; lra.
  - simpl fold_left. destruct (IH (acc + rating r)) as [Hlo Hhi].
    change (length (r :: l)) with (S (length l)).
    rewrite Nat2Z.inj_succ. unfold Z.succ. rewrite inject_Z_plus.
    change (inject_Z 1) with 1.
    assert (H1 : 1 <= rating r).
    { rewrite Hk. change 1 with (inject_Z 1). rewrite <- Zle_Qle. lia. }
    assert (H5 : rating r <= 5).
    { rewrite Hk. change 5 with (inject_Z 5). rewrite <- Zle_Qle. lia. }
    split; lra.
Qed.

Lemma increment_star (r : Review) (a b c d e : Z) :
  wholeStars r ->
  exists a' b' c' d' e' : Z,
    increment (rating r)
      [(1, Some a); (2, Some b); (3, Some c); (4, Some d); (5, Some e)]
    = [(1, Some a'); (2, Some b'); (3, Some c'); (4, Some d'); (5, Some e')]
    /\ (a' + b' + c' + d' + e' = a + b + c + d + e + 1)%Z
    /\ (a <= a' /\ b <= b' /\ c <= c' /\ d <= d' /\ e <= e')%Z.
Proof.
  intros (k & Hrange & Hk).
  assert (Hcases : k = 1%Z \/ k = 2%Z \/ k = 3%Z \/ k = 4%Z \/ k = 5%Z)
    by lia.
  unfold increment.
  destruct Hcases as [-> | [-> | [-> | [-> | ->]]]];
    repeat
      match goal with
      | |- context [Qeq_bool ?x (rating r)] =>
          let Htest := fresh "Htest" in
          destruct (Qeq_bool x (rating r)) eqn:Htest;
          [ apply Qeq_bool_iff in Htest;
            try (exfalso; rewrite Hk in Htest; discriminate Htest)
          | try (exfalso; apply Qeq_bool_neq in Htest; apply Htest;
                 rewrite Hk; reflexivity) ]
      end;
    simpl; do 5 eexists; (split; [reflexivity | lia]).
Qed.

Lemma distribution_stars (l : list Review) :
  Forall wholeStars l ->
  forall a b c d e : Z,
    exists a' b' c' d' e' : Z,
      fold_left (fun dist review => increment (rating review) dist) l
        [(1, Some a); (2, Some b); (3, Some c); (4, Some d); (5, Some e)]
      = [(1, Some a'); (2, Some b'); (3, Some c'); (4, Some d');
         (5, Some e')]
      /\ (a' + b' + c' + d' + e'
          = a + b + c + d + e + Z.of_nat (length l))%Z
      /\ (a <= a' /\ b <= b' /\ c <= c' /\ d <= d' /\ e <= e')%Z.
Proof.
  induction 1 as [| r l Hr _ IH]; intros a b c d e.
  - exists a, b, c, d, e. simpl. repeat split; lia.
  - cbn [fold_left].
    destruct (increment_star r a b c d e Hr)
      as (a1 & b1 & c1 & d1 & e1 & -> & Hsum1 & Hle1).
    destruct (IH a1 b1 c1 d1 e1)
      as (a2 & b2 & c2 & d2 & e2 & Hfold & Hsum2 & Hle2).
    exists a2, b2, c2, d2, e2. rewrite Hfold.
    change (length (r :: l)) with (S (length l)).
    rewrite Nat2Z.inj_succ. repeat split; lia.
Qed.

(** X6: for reviews rated in whole stars from one to five,
    [calculateAverageRating] counts the reviews, gives an average whose
    product with the count is the sum of the ratings and which lies
    between 1 and 5 when there is a review, and gives a distribution over
    exactly the keys 1 to 5 whose tallies are not negative and add up to
    the count; with no review everything is zero. *)
Theorem calculateAverageRating_summary (reviews : list Review) :
  Forall wholeStars reviews ->
  count (calculateAverageRating reviews) = length reviews
  /\ average (calculateAverageRating reviews)
     * inject_Z (Z.of_nat (length reviews))
     == fold_left (fun sum review => sum + rating review) reviews 0
  /\ (reviews <> [] ->
      1 <= average (calculateAverageRating reviews) <= 5)
  /\ (exists a b c d e : Z,
        distribution (calculateAverageRating reviews)
        = [(1, Some a); (2, Some b); (3, Some c); (4, Some d); (5, Some e)]
        /\ (a + b + c + d + e = Z.of_nat (length reviews))%Z
        /\ (0 <= a /\ 0 <= b /\ 0 <= c /\ 0 <= d /\ 0 <= e)%Z)
  /\ calculateAverageRating [] = mkRatings 0 0 emptyDistribution.
Proof.
  intros Hstars. unfold calculateAverageRating.
  destruct reviews as [| r l].
  - simpl. split; [reflexivity |]. split; [lra |].
    split; [intros Hnil; contradiction |]. split; [| reflexivity].
    exists 0%Z, 0%Z, 0%Z, 0%Z, 0%Z. repeat split; try reflexivity; lia.
  - change (Nat.eqb (length (r :: l)) 0) with false. cbv iota.
    set (n := inject_Z (Z.of_nat (length (r :: l)))).
    assert (Hn : 1 <= n).
    { unfold n. change 1 with (inject_Z 1). rewrite <- Zle_Qle.
      change (length (r :: l)) with (S (length l)). lia. }
    destruct (total_rating_bounds (r :: l) Hstars 0) as [Hlo Hhi].
    fold n in Hlo, Hhi.
    cbn [count average distribution].
    split; [reflexivity |].
    split; [field; lra |].
    split.
    + intros _. split.
      * apply Qle_shift_div_l; lra.
      * apply Qle_shift_div_r; lra.
    + split; [| reflexivity].
      destruct (distribution_stars (r :: l) Hstars 0 0 0 0 0)
        as (a & b & c & d & e & Hfold & Hsum & Hle).
      exists a, b, c, d, e. unfold emptyDistribution. rewrite Hfold.
      repeat split; lia.
Qed.

Lemma calculateAverageRating_summary_witness :
  count (calculateAverageRating [mkReview "ann" 4 "good"; mkReview "bo" 5 ""])
  = 2%nat.
Proof.
  apply (calculateAverageRating_summary
           [mkReview "ann" 4 "good"; mkReview "bo" 5 ""]).
  repeat constructor.
  - exists 4%Z. split; [lia | reflexivity].
  - exists 5%Z. split; [lia | reflexivity].
Defined.

End RatingSummary.

(** ** Line identity is an equivalence *)
Section VariantEquivalence.

Import Cart.

Lemma Qeq_bool_sym' (x y : Q) : Qeq_bool x y = Qeq_bool y x.
Proof.
  destruct (Qeq_bool x y) eqn:Hxy, (Qeq_bool y x) eqn:Hyx; auto.
  - apply Qeq_bool_iff in Hxy. apply Qeq_bool_neq in Hyx.
    exfalso. apply Hyx. symmetry. exact Hxy.
  - apply Qeq_bool_iff in Hyx. apply Qeq_bool_neq in Hxy.
    exfalso. apply Hxy. symmetry. exact Hyx.
Qed.

Lemma Qeq_bool_trans' (x y z : Q) :
  Qeq_bool x y = true -> Qeq_bool y z = true -> Qeq_bool x z = true.
Proof.
  rewrite !Qeq_bool_iff. intros Hxy Hyz. rewrite Hxy. exact Hyz.
Qed.

Lemma string_eqb_trans (x y z : string) :
  String.eqb x y = true -> String.eqb y z = true -> String.eqb x z = true.
Proof. rewrite !String.eqb_eq. congruence. Qed.

Lemma option_eqb_sym {A : Type} (eqb : A -> A -> bool) (a b : option A) :
  (forall x y, eqb x y = eqb y x) -> option_eqb eqb a b = option_eqb eqb b a.
Proof. intros Hsym. destruct a, b; simpl; auto. Qed.

Lemma option_eqb_trans {A : Type} (eqb : A -> A -> bool) (a b c : option A) :
  (forall x y z, eqb x y = true -> eqb y z = true -> eqb x z = true) ->
  option_eqb eqb a b = true -> option_eqb eqb b c = true ->
  option_eqb eqb a c = true.
Proof.
  intros Htrans. destruct a, b, c; simpl; try discriminate; eauto.
Qed.

Lemma variant_eqb_sym (a b : option Variant) :
  variant_eqb a b = variant_eqb b a.
Proof.
  unfold variant_eqb. apply option_eqb_sym. intros x y.
  rewrite (option_eqb_sym String.eqb (vname x)) by apply String.eqb_sym.
  rewrite (option_eqb_sym String.eqb (vvalue x)) by apply String.eqb_sym.
  rewrite (option_eqb_sym Qeq_bool (priceAdjustment x))
    by apply Qeq_bool_sym'.
  reflexivity.
Qed.

Lemma variant_eqb_trans (a b c : option Variant) :
  variant_eqb a b = true -> variant_eqb b c = true ->
  variant_eqb a c = true.
Proof.
  unfold variant_eqb. apply option_eqb_trans. intros x y z Hxy Hyz.
  apply andb_true_iff in Hxy. destruct Hxy as [Hxy Hq1].
  apply andb_true_iff in Hxy. destruct Hxy as [Hn1 Hv1].
  apply andb_true_iff in Hyz. destruct Hyz as [Hyz Hq2].
  apply andb_true_iff in Hyz. destruct Hyz as [Hn2 Hv2].
  rewrite (option_eqb_trans _ _ _ _ string_eqb_trans Hn1 Hn2).
  rewrite (option_eqb_trans _ _ _ _ string_eqb_trans Hv1 Hv2).
  rewrite (option_eqb_trans _ _ _ _ Qeq_bool_trans' Hq1 Hq2).
  reflexivity.
Qed.

(** Two identities are the same when their product ids are equal and
    their variants have the same text. *)
Lemma sameLine_other_identity (p1 p2 : string) (v1 v2 : option Variant)
  (it : Item) :
  (p1 =? p2)%string && variant_eqb v1 v2 = false ->
  sameLine p1 v1 it = true -> sameLine p2 v2 it = false.
Proof.
  intros Hother H1. unfold sameLine in *.
  apply andb_true_iff in H1. destruct H1 as [Hp1 Hv1].
  apply String.eqb_eq in Hp1.
  destruct (product it =? p2)%string eqn:Hp2; simpl; [| reflexivity].
  apply String.eqb_eq in Hp2.
  assert (Hp : (p1 =? p2)%string = true)
    by (apply String.eqb_eq; congruence).
  rewrite Hp in Hother. simpl in Hother.
  destruct (variant_eqb (variant it) v2) eqn:Hv2; [| reflexivity].
  rewrite variant_eqb_sym in Hv1.
  rewrite (variant_eqb_trans _ _ _ Hv1 Hv2) in Hother. discriminate Hother.
Qed.

End VariantEquivalence.

(** ** Removing and updating lines *)
Section RemoveAndUpdate.

Import Cart.

Variable db : Product.Collection.

Lemma filter_filter_out (f g : Item -> bool) (l : list Item) :
  (forall x, f x = true -> g x = false) ->
  filter f (filter (fun x => negb (g x)) l) = filter f l.
Proof.
  intros Hfg. induction l as [| x l IH]; simpl; [reflexivity |].
  destruct (g x) eqn:Hg; simpl.
  - destruct (f x) eqn:Hf; [| exact IH].
    rewrite (Hfg x Hf) in Hg. discriminate Hg.
  - destruct (f x); rewrite IH; reflexivity.
Qed.

Lemma filter_out_itself (f : Item -> bool) (l : list Item) :
  filter f (filter (fun x => negb (f x)) l) = [].
Proof.
  induction l as [| x l IH]; simpl; [reflexivity |].
  destruct (f x) eqn:Hf; simpl; [exact IH |]. rewrite Hf. exact IH.
Qed.

Lemma filter_split_length (f : Item -> bool) (l : list Item) :
  (length (filter (fun x => negb (f x)) l) + length (filter f l)
   = length l)%nat.
Proof.
  induction l as [| x l IH]; simpl; [reflexivity |].
  destruct (f x); simpl; lia.
Qed.

Lemma filter_update_other (f g : Item -> bool) (h : Item -> Item)
  (l : list Item) :
  (forall x, f x = true -> g x = false) -> (forall x, g (h x) = g x) ->
  filter g (update_first f h l) = filter g l.
Proof.
  intros Hfg Hgh. induction l as [| x l IH]; simpl; [reflexivity |].
  destruct (f x) eqn:Hf; simpl.
  - rewrite Hgh, (Hfg x Hf). reflexivity.
  - destruct (g x); rewrite IH; reflexivity.
Qed.

Lemma items_removeItem (now : Z) (productId : string) (v : option Variant)
  (c : t) :
  items (removeItem db now productId v c)
  = filter (fun it => negb (sameLine productId v it)) (items c).
Proof. unfold removeItem. rewrite items_save. reflexivity. Qed.

(** X7: [removeItem] deletes every line of the given identity and nothing
    else: no line of that identity is left, the lines of any other
    identity are kept as they were, the number of lines drops by the
    number deleted, and a second removal changes no line. *)
Theorem removeItem_deletes_identity (now now' : Z) (productId : string)
  (v : option Variant) (c : t) :
  linesOf productId v (removeItem db now productId v c) = []
  /\ (forall (p' : string) (v' : option Variant),
        (p' =? productId)%string && variant_eqb v' v = false ->
        linesOf p' v' (removeItem db now productId v c) = linesOf p' v' c)
  /\ (length (items (removeItem db now productId v c))
      + length (linesOf productId v c)
      = length (items c))%nat
  /\ items (removeItem db now' productId v (removeItem db now productId v c))
     = items (removeItem db now productId v c).
Proof.
  unfold linesOf. rewrite !items_removeItem. repeat split.
  - apply filter_out_itself.
  - intros p' v' Hother. apply filter_filter_out.
    intros x Hx. exact (sameLine_other_identity _ _ _ _ x Hother Hx).
  - apply filter_split_length.
  - induction (items c) as [| x l IH]; simpl; [reflexivity |].
    destruct (sameLine productId v x) eqn:Hx; simpl; [exact IH |].
    rewrite Hx. simpl. f_equal. exact IH.
Qed.

Lemma items_updateQuantity (now : Z) (productId : string) (qty : Z)
  (v : option Variant) (c : t) :
  items (updateQuantity db now productId qty v c)
  = if existsb (sameLine productId v) (items c) then
      if qty <=? 0
      then filter (fun it => negb (sameLine productId v it)) (items c)
      else update_first (sameLine productId v)
             (fun it => mkItem (product it) qty (variant it) (addedAt it) now)
             (items c)
    else items c.
Proof.
  unfold updateQuantity.
  destruct (existsb _ (items c)); [| reflexivity].
  destruct (qty <=? 0); [apply items_removeItem |].
  rewrite items_save. reflexivity.
Qed.

(** X8: [updateQuantity] on an identity the cart does not hold returns
    the cart untouched, without saving; with a quantity of zero or less it
    is [removeItem]; with a positive quantity it writes that quantity on
    the first line of the identity, adds and removes no line, and leaves
    the lines of every other identity as they were, so that on a cart
    whose lines are unique the identity then holds exactly that
    quantity. *)
Theorem updateQuantity_sets_quantity (now : Z) (productId : string)
  (qty : Z) (v : option Variant) (c : t) :
  (existsb (sameLine productId v) (items c) = false ->
   updateQuantity db now productId qty v c = c)
  /\ (existsb (sameLine productId v) (items c) = true -> qty <= 0 ->
      updateQuantity db now productId qty v c
      = removeItem db now productId v c)
  /\ (existsb (sameLine productId v) (items c) = true -> 0 < qty ->
      length (items (updateQuantity db now productId qty v c))
      = length (items c)
      /\ (forall (p' : string) (v' : option Variant),
            (p' =? productId)%string && variant_eqb v' v = false ->
            linesOf p' v' (updateQuantity db now productId qty v c)
            = linesOf p' v' c)
      /\ (uniqueLines c ->
          quantityOf productId v (updateQuantity db now productId qty v c)
          = qty)).
Proof.
  split; [| split].
  - intros Habsent. unfold updateQuantity. rewrite Habsent. reflexivity.
  - intros Hfound Hqty. unfold updateQuantity. rewrite Hfound.
    apply Z.leb_le in Hqty. rewrite Hqty. reflexivity.
  - intros Hfound Hqty.
    assert (Hpos : (qty <=? 0) = false) by (apply Z.leb_gt; exact Hqty).
    unfold linesOf, quantityOf, linesOf.
    rewrite items_updateQuantity, Hfound, Hpos.
    split; [apply update_first_length |]. split.
    + intros p' v' Hother. apply filter_update_other; [| reflexivity].
      intros x Hx. apply (sameLine_other_identity productId p' v v' x).
      * rewrite String.eqb_sym, variant_eqb_sym. exact Hother.
      * exact Hx.
    + intros Hunique. specialize (Hunique productId v).
      unfold linesOf in Hunique.
      rewrite filter_update_first by reflexivity.
      destruct (existsb_true_filter _ _ Hfound) as (x & r & Hxr).
      rewrite Hxr in *. simpl in Hunique.
      destruct r; [simpl; lia | simpl in Hunique; lia].
Qed.

End RemoveAndUpdate.

Lemma updateQuantity_sets_quantity_witness :
  quantityOf "p1" None (Cart.updateQuantity catalog 3000 "p1" 7 None cartA) = 7.
Proof.
  apply (updateQuantity_sets_quantity catalog 3000 "p1" 7 None cartA).
  - reflexivity.
  - lia.
  - intros p v.
    destruct (Cart.sameLine p v (Cart.mkItem "p1" 3 None 1000 1000)) eqn:Hline;
      unfold linesOf; simpl; rewrite Hline; simpl; lia.
Defined.


(** ** Variants as the schema stores them *)
Section StoredVariants.

Import Cart.

Lemma Forall_update_first (P : Item -> Prop) (f : Item -> bool)
  (h : Item -> Item) (l : list Item) :
  (forall x, P x -> P (h x)) -> Forall P l -> Forall P (update_first f h l).
Proof.
  intros Hh Hl. induction Hl as [| x l Hx Hl IH]; simpl; [constructor |].
  destruct (f x); constructor; auto.
Qed.

Lemma Forall_kept (P : Item -> Prop) (f : Item -> bool) (l : list Item) :
  Forall P l -> Forall P (filter f l).
Proof.
  intros Hl. induction Hl as [| x l Hx Hl IH]; simpl; [constructor |].
  destruct (f x); [constructor |]; assumption.
Qed.

Lemma mutate_storedVariants (db : Product.Collection) (now : Z)
  (m : Mutation) (c : t) :
  storedVariants c -> storedVariants (mutate db now m c).
Proof.
  unfold storedVariants. intros Hc.
  destruct m as [pid q v | pid q v | pid v | code di ty | | method |];
    cbn [mutate].
  - unfold addItem. rewrite items_save. cbn [set_items items].
    destruct (existsb _ (items c)).
    + apply Forall_update_first; [| exact Hc]. intros x Hx. exact Hx.
    + apply Forall_app. split; [exact Hc |].
      constructor; [| constructor]. apply isCast_castVariant.
  - rewrite items_updateQuantity.
    destruct (existsb _ (items c)); [| exact Hc].
    destruct (q <=? 0).
    + apply Forall_kept. exact Hc.
    + apply Forall_update_first; [| exact Hc]. intros x Hx. exact Hx.
  - rewrite items_removeItem. apply Forall_kept. exact Hc.
  - unfold applyCoupon. rewrite items_save. exact Hc.
  - unfold removeCoupon. rewrite items_save. exact Hc.
  - unfold updateShippingMethod. rewrite items_save. exact Hc.
  - unfold clear. rewrite items_save. constructor.
Qed.

(** X9: in every cart built from a new one through the mutation
    operations, each line's variant is [null] or carries a
    [priceAdjustment]: a line never holds a variant in the form a request
    may give it, without the adjustment. *)
Theorem reachable_variants_stored (c : t) : reachable c -> storedVariants c.
Proof.
  induction 1 as [u now | db now m c _ IH].
  - constructor.
  - apply mutate_storedVariants. exact IH.
Qed.

Lemma reachable_variants_stored_witness :
  storedVariants
    (addItem catalog 1000 "p1" (Some 2) (Some sizeL) (create "alice" 0)).
Proof.
  apply (reachable_variants_stored
           (addItem catalog 1000 "p1" (Some 2) (Some sizeL)
              (create "alice" 0))).
  exact (reach_mutate catalog 1000 (AddItem "p1" (Some 2) (Some sizeL))
           (create "alice" 0) (reach_create "alice" 0)).
Defined.

End StoredVariants.

(** ** Item count and stock validation *)
Section CountAndValidation.

Import Cart.

Variable db : Product.Collection.

Lemma count_from (l : list Item) (acc : Z) :
  fold_left (fun tot it => tot + quantity it) l acc
  = acc + fold_left (fun tot it => tot + quantity it) l 0.
Proof.
  revert acc. induction l as [| x l IH]; intros acc; simpl; [lia |].
  rewrite (IH (acc + quantity x)), (IH (quantity x)). lia.
Qed.

Lemma count_bumped (f : Item -> bool) (q now : Z) (l : list Item) :
  existsb f l = true ->
  fold_left (fun tot it => tot + quantity it)
    (update_first f (bump q now) l) 0
  = fold_left (fun tot it => tot + quantity it) l 0 + q.
Proof.
  induction l as [| x l IH]; simpl; [discriminate |].
  destruct (f x); simpl.
  - intros _.
    rewrite (count_from l (quantity x + q)), (count_from l (quantity x)).
    lia.
  - intros Hfound.
    rewrite (count_from _ (quantity x)), (count_from l (quantity x)).
    rewrite IH by exact Hfound. lia.
Qed.

Lemma count_split (f : Item -> bool) (l : list Item) :
  fold_left (fun tot it => tot + quantity it) l 0
  = fold_left (fun tot it => tot + quantity it)
      (filter (fun it => negb (f it)) l) 0
    + fold_right (fun it acc => quantity it + acc) 0 (filter f l).
Proof.
  induction l as [| x l IH]; simpl; [reflexivity |].
  destruct (f x); simpl.
  - rewrite (count_from l (quantity x)). lia.
  - rewrite (count_from l (quantity x)), (count_from _ (quantity x)). lia.
Qed.

Lemma demand_app (id : string) (l1 l2 : list Item) :
  demand id (l1 ++ l2) = demand id l1 + demand id l2.
Proof.
  induction l1 as [| x l1 IH]; simpl; [reflexivity |].
  destruct (product x =? id)%string; lia.
Qed.

Lemma demand_bumped (productId : string) (v : option Variant) (q now : Z)
  (l : list Item) :
  existsb (sameLine productId v) l = true ->
  demand productId (update_first (sameLine productId v) (bump q now) l)
  = demand productId l + q.
Proof.
  induction l as [| x l IH]; simpl; [discriminate |].
  destruct (sameLine productId v x) eqn:Hx; simpl.
  - intros _. unfold sameLine in Hx.
    apply andb_true_iff in Hx. destruct Hx as [Hp _].
    rewrite Hp. lia.
  - intros Hfound. rewrite IH by exact Hfound.
    destruct (product x =? productId)%string; lia.
Qed.

(** The units a cart holds of a product grow by what [addItem] is
    given, whichever line takes them. *)
Lemma demand_addItem (now : Z) (productId : string) (q : Z)
  (v : option Variant) (c : t) :
  demand productId (items (addItem db now productId (Some q) v c))
  = demand productId (items c) + q.
Proof.
  rewrite items_addItem.
  destruct (existsb _ (items c)) eqn:Hfound.
  - apply demand_bumped. exact Hfound.
  - rewrite demand_app. simpl. rewrite String.eqb_refl. lia.
Qed.

(** X10: [getItemCount] follows the line operations: adding [q] units
    raises it by [q], whether a line is appended or an existing one grows;
    removing an identity lowers it by the units that identity held; a
    cleared or new cart counts zero. *)
Theorem getItemCount_follows (now : Z) (u productId : string) (q : Z)
  (v : option Variant) (c : t) :
  getItemCount (addItem db now productId (Some q) v c) = getItemCount c + q
  /\ getItemCount (removeItem db now productId v c)
     = getItemCount c - quantityOf productId v c
  /\ getItemCount (clear db now c) = 0
  /\ getItemCount (create u now) = 0.
Proof.
  unfold getItemCount. repeat split.
  - rewrite items_addItem.
    destruct (existsb _ (items c)) eqn:Hfound.
    + apply count_bumped. exact Hfound.
    + rewrite fold_left_app. simpl. reflexivity.
  - rewrite items_removeItem.
    rewrite (count_split (sameLine productId v) (items c)).
    unfold quantityOf, linesOf. lia.
  - unfold clear. rewrite items_save. reflexivity.
Qed.

Lemma validateStock_step (acc : list StockIssue) (item : Item) :
  match Product.findById db (product item) with
  | Some p =>
      if Product.trackQuantity (Product.inventory p) then
        if negb (Product.available (Product.checkStock p (quantity item)))
        then acc ++ [mkIssue (Product.name p) (quantity item)
                       (Product.availableQuantity
                          (Product.checkStock p (quantity item)))
                       (Product.message
                          (Product.checkStock p (quantity item)))]
        else acc
      else acc
  | None => acc
  end
  = acc ++ issueOf db item.
Proof.
  unfold issueOf, lineInStock, Product.checkStock, stock.
  destruct (Product.findById db (product item)) as [p |];
    [| symmetry; apply app_nil_r].
  destruct (Product.trackQuantity (Product.inventory p)); simpl;
    [| symmetry; apply app_nil_r].
  destruct (Product.allowBackorders (Product.inventory p)); simpl;
    [symmetry; apply app_nil_r |].
  rewrite Z.geb_leb.
  destruct (quantity item <=? Product.quantity (Product.inventory p)); simpl;
    [symmetry; apply app_nil_r | reflexivity].
Qed.

Lemma validateStock_fold (l : list Item) (acc : list StockIssue) :
  fold_left
    (fun acc item =>
       match Product.findById db (product item) with
       | Some p =>
           if Product.trackQuantity (Product.inventory p) then
             if negb (Product.available
                        (Product.checkStock p (quantity item)))
             then acc ++ [mkIssue (Product.name p) (quantity item)
                            (Product.availableQuantity
                               (Product.checkStock p (quantity item)))
                            (Product.message
                               (Product.checkStock p (quantity item)))]
             else acc
           else acc
       | None => acc
       end)
    l acc
  = acc ++ flat_map (issueOf db) l.
Proof.
  revert acc. induction l as [| x l IH]; intros acc; simpl.
  - symmetry. apply app_nil_r.
  - rewrite validateStock_step, IH, app_assoc. reflexivity.
Qed.

Lemma issueOf_nil (item : Item) :
  Nat.eqb (length (issueOf db item)) 0 = lineInStock db item.
Proof.
  unfold issueOf.
  destruct (Product.findById db (product item)) as [p |] eqn:Hp.
  - destruct (lineInStock db item); reflexivity.
  - unfold lineInStock. rewrite Hp. reflexivity.
Qed.

(** X11: [validateStock] judges every line on its own against the stock
    of its product: the cart is valid exactly when every line passes (its
    product is missing, does not track stock, takes backorders, or holds
    at least the quantity of that line), and the issues are, in cart
    order, one per failing line, each with the product name, the quantity
    asked and the units in stock. *)
Theorem validateStock_per_line (c : t) :
  issues (validateStock db c) = flat_map (issueOf db) (items c)
  /\ isValid (validateStock db c) = forallb (lineInStock db) (items c)
  /\ (isValid (validateStock db c) = true <-> issues (validateStock db c) = []).
Proof.
  unfold validateStock. cbn [issues isValid].
  rewrite validateStock_fold. cbn [app].
  split; [reflexivity |]. split.
  - induction (items c) as [| x l IH]; simpl; [reflexivity |].
    rewrite length_app, <- IH, <- issueOf_nil.
    destruct (length (issueOf db x)), (length (flat_map (issueOf db) l));
      reflexivity.
  - destruct (flat_map (issueOf db) (items c)); simpl;
      split; auto; discriminate.
Qed.

End CountAndValidation.

(** ** Coupons and totals *)
Section CouponsAndTotals.

Import Cart.
Local Open Scope Q_scope.

Variable db : Product.Collection.

Lemma subtotal_from (l : list Item) (acc : Q) :
  fold_left
    (fun acc item =>
       match Product.findById db (product item) with
       | Some p => acc + itemPrice p (variant item) * inject_Z (quantity item)
       | None => acc
       end)
    l acc
  == acc + linesAmount db l.
Proof.
  revert acc. induction l as [| x l IH]; intros acc; simpl.
  - ring.
  - rewrite IH. unfold lineAmount.
    destruct (Product.findById db (product x)); ring.
Qed.

Lemma subtotal_recomputed (c : t) :
  subtotal (calculateTotals db c)
  = fold_left
      (fun acc item =>
         match Product.findById db (product item) with
         | Some p =>
             acc + itemPrice p (variant item) * inject_Z (quantity item)
         | None => acc
         end)
      (items c) 0.
Proof. unfold calculateTotals. destruct (computeDiscount _ _); reflexivity. Qed.

Lemma subtotal_calculateTotals (c : t) :
  subtotal (calculateTotals db c) == linesAmount db (items c).
Proof. rewrite subtotal_recomputed, subtotal_from. ring. Qed.

(** The default the schema adds to a variant is the one the price of a
    line assumes. *)
Lemma lineAmount_stored (productId : string) (q a b : Z)
  (v : option Variant) :
  lineAmount db (mkItem productId q (castVariant v) a b)
  = lineAmount db (mkItem productId q v a b).
Proof.
  unfold lineAmount. cbn [product variant quantity].
  destruct (Product.findById db productId) as [p |]; [| reflexivity].
  unfold itemPrice. destruct v as [x |]; [| reflexivity].
  cbn [castVariant priceAdjustment].
  destruct (priceAdjustment x); reflexivity.
Qed.

Lemma linesAmount_app (l1 l2 : list Item) :
  linesAmount db (l1 ++ l2) == linesAmount db l1 + linesAmount db l2.
Proof.
  induction l1 as [| x l1 IH]; simpl; [ring |]. rewrite IH. ring.
Qed.

Lemma itemPrice_same_variant (p : Product.t) (v1 v2 : option Variant) :
  variant_eqb v1 v2 = true -> itemPrice p v1 == itemPrice p v2.
Proof.
  unfold itemPrice, variant_eqb. intros Hsame.
  destruct v1 as [x |], v2 as [y |]; simpl in Hsame;
    try discriminate Hsame; [| reflexivity].
  apply andb_true_iff in Hsame. destruct Hsame as [_ Hadj].
  destruct (priceAdjustment x) as [a |], (priceAdjustment y) as [b |];
    simpl in Hadj; try discriminate Hadj; [| reflexivity].
  apply Qeq_bool_iff in Hadj. simpl. rewrite Hadj. reflexivity.
Qed.

Lemma linesAmount_bumped (productId : string) (v : option Variant)
  (q now : Z) (l : list Item) :
  existsb (sameLine productId v) l = true ->
  linesAmount db (update_first (sameLine productId v) (bump q now) l)
  == linesAmount db l + lineAmount db (mkItem productId q v now now).
Proof.
  induction l as [| x l IH]; simpl; [discriminate |].
  destruct (sameLine productId v x) eqn:Hx; simpl.
  - intros _. unfold sameLine in Hx.
    apply andb_true_iff in Hx. destruct Hx as [Hp Hv].
    apply String.eqb_eq in Hp.
    unfold lineAmount, bump. cbn [product quantity variant]. rewrite Hp.
    destruct (Product.findById db productId) as [p |]; [| ring].
    rewrite inject_Z_plus, (itemPrice_same_variant p _ _ Hv). ring.
  - intros Hfound. rewrite IH by exact Hfound. ring.
Qed.

(** X12: once the totals are recomputed, adding [q] units of an identity
    raises the subtotal by the amount of a line of [q] units of it, that
    is by [q] times the unit price of the product with the variant's
    adjustment, and by nothing when the product cannot be found; it does
    so whether the units join an existing line or form a new one. *)
Theorem addItem_raises_subtotal (now : Z) (productId : string) (q : Z)
  (v : option Variant) (c : t) :
  subtotal (calculateTotals db (addItem db now productId (Some q) v c))
  == subtotal (calculateTotals db c)
     + lineAmount db (mkItem productId q v now now)
  /\ lineAmount db (mkItem productId q v now now)
     = match Product.findById db productId with
       | Some p => itemPrice p v * inject_Z q
       | None => 0
       end.
Proof.
  split; [| reflexivity].
  rewrite !subtotal_calculateTotals, items_addItem.
  destruct (existsb _ (items c)) eqn:Hfound.
  - apply linesAmount_bumped. exact Hfound.
  - rewrite linesAmount_app. cbn [linesAmount fold_right].
    rewrite lineAmount_stored. ring.
Qed.

(** X13: removing a coupon that was just applied does not give the cart
    back the totals it had without one.  The coupon slot is empty and the
    lines are those of the cart, subtotal and shipping are recomputed,
    but the discount is left undefined and tax and total keep the values
    they had with the coupon, so the total is no longer the sum of its
    parts.  The cart of Scenario B keeps tax 4.32 and total 64.31. *)
Theorem removeCoupon_keeps_couponed_totals (now1 now2 : Z) (code : string)
  (di : Q) (ty : option string) (c : t) :
  coupon (removeCoupon db now2 (applyCoupon db now1 code di ty c)) = None
  /\ items (removeCoupon db now2 (applyCoupon db now1 code di ty c))
     = items c
  /\ discount (removeCoupon db now2 (applyCoupon db now1 code di ty c))
     = None
  /\ subtotal (removeCoupon db now2 (applyCoupon db now1 code di ty c))
     = subtotal (calculateTotals db c)
  /\ shipping (removeCoupon db now2 (applyCoupon db now1 code di ty c))
     = or_else (rate_of (shippingMethod c)) 0
  /\ tax (removeCoupon db now2 (applyCoupon db now1 code di ty c))
     = tax (applyCoupon db now1 code di ty c)
  /\ total (removeCoupon db now2 (applyCoupon db now1 code di ty c))
     = total (applyCoupon db now1 code di ty c)
  /\ ~ totals_consistent
         (removeCoupon db now2 (applyCoupon db now1 code di ty c))
  /\ tax (removeCoupon catalog 3000 cartB) == 4.32
  /\ total (removeCoupon catalog 3000 cartB) == 64.31.
Proof.
  set (c1 := applyCoupon db now1 code di ty c).
  assert (Hitems : items c1 = items c)
    by (unfold c1, applyCoupon; rewrite items_save; reflexivity).
  assert (Hship : shippingMethod c1 = shippingMethod c)
    by (unfold c1, applyCoupon; rewrite shippingMethod_save; reflexivity).
  assert (Hcoupon : coupon c1 <> None)
    by (unfold c1, applyCoupon; rewrite coupon_save; discriminate).
  assert (Hfire : hookFires c1 (set_coupon c1 None) = true).
  { unfold hookFires, isModified_coupon. cbn [coupon set_coupon].
    destruct (coupon c1); [| contradiction]. simpl.
    rewrite orb_true_r. reflexivity. }
  unfold removeCoupon. rewrite (save_fired db now2 c1 _ Hfire).
  rewrite (subtotal_recomputed c), <- Hitems, <- Hship.
  unfold totals_consistent, calculateTotals.
  cbn [coupon items discount subtotal tax shipping total set_lastActivity
       set_totals set_coupon shippingMethod computeDiscount].
  split; [reflexivity |]. split; [reflexivity |]. split; [reflexivity |].
  split; [reflexivity |]. split; [reflexivity |]. split; [reflexivity |].
  split; [reflexivity |]. split; [intros Hfalse; exact Hfalse |].
  split; vm_compute; reflexivity.
Qed.





End CouponsAndTotals.


(** ** Status changes *)
Section StatusChanges.

Import Order.

(** X15: after [updateStatus] the order holds the new status, it can be
    cancelled exactly when that status is pending or confirmed, and it can
    be returned exactly when that status is delivered and fewer than 31
    days have passed since the instant of the update; the return check
    never fails on an order delivered through [updateStatus]. *)
Theorem updateStatus_then_checks (now later : Z) (s : Status) (o : t) :
  status (updateStatus now s o) = s
  /\ canBeCancelled (updateStatus now s o)
     = (status_eqb s pending || status_eqb s confirmed)
  /\ canBeReturned later (updateStatus now s o)
     = Some (status_eqb s delivered && (later - now <? 31 * msPerDay))
  /\ deliveredAt (updateStatus now s o)
     = (if status_eqb s delivered then Some now else deliveredAt o)
  /\ cancelledAt (updateStatus now s o)
     = (if status_eqb s cancelled then Some now else cancelledAt o).
Proof.
  split; [reflexivity |]. split.
  { destruct s; reflexivity. }
  split; [| split; reflexivity].
  unfold canBeReturned. cbn [status updateStatus deliveredAt].
  destruct (status_eqb s delivered); simpl; [| reflexivity].
  f_equal. apply eq_true_iff_eq.
  rewrite whole_days_within, Z.ltb_lt. reflexivity.
Qed.

End StatusChanges.

(** ** Outcomes of a checkout *)
Section CheckoutOutcomes.

Import Checkout.

(** X17: [createOrder] never creates an order and never writes: whatever
    the store and the request, the store is left exactly as it was.  It
    answers "Cart is empty" when the user has no cart or a cart without
    lines, "out of stock" with the issues of [validateStock], at least
    one, when the cart has lines and one of them fails the stock check,
    and it ends with a thrown error exactly when the cart has lines that
    all pass: the map of the order items then reads [images] on products
    populated without them. *)
Theorem createOrder_outcomes (now : Z) (req : Request) (s : Store) :
  snd (createOrder now req s) = s
  /\ match fst (createOrder now req s) with
     | Created o => False
     | CartIsEmpty =>
         match findCart (carts s) (user req) with
         | Some cart => Cart.items cart = []
         | None => True
         end
     | OutOfStock issues =>
         exists cart : Cart.t,
           findCart (carts s) (user req) = Some cart
           /\ Cart.items cart <> []
           /\ issues = Cart.issues (Cart.validateStock (products s) cart)
           /\ issues <> []
     | InternalError =>
         exists cart : Cart.t,
           findCart (carts s) (user req) = Some cart
           /\ Cart.items cart <> []
           /\ Cart.isValid (Cart.validateStock (products s) cart) = true
           /\ orderItems forStock (products s) (Cart.items cart) = None
     end.
Proof.
  split; [apply createOrder_store |].
  unfold createOrder.
  destruct (findCart (carts s) (user req)) as [cart |] eqn:Hcart;
    [| exact I].
  destruct (Nat.eqb (length (Cart.items cart)) 0) eqn:Hempty.
  { simpl. destruct (Cart.items cart); [reflexivity | discriminate Hempty]. }
  pose proof (nonempty_items cart Hempty) as Hlines.
  destruct (Cart.isValid (Cart.validateStock (products s) cart)) eqn:Hvalid;
    cbn [negb fst].
  - rewrite buildOrder_forStock by exact Hlines. cbn [fst].
    exists cart. split; [reflexivity |]. split; [exact Hlines |].
    split; [exact Hvalid |]. apply orderItems_forStock. exact Hlines.
  - exists cart. split; [reflexivity |]. split; [exact Hlines |].
    split; [reflexivity |]. intros Hnil.
    unfold Cart.validateStock in Hvalid, Hnil.
    cbn [Cart.isValid Cart.issues] in Hvalid, Hnil.
    rewrite Hnil in Hvalid. discriminate Hvalid.
Qed.

End CheckoutOutcomes.

(** ** Stock through checkout and cancellation *)
Section StockThroughCheckout.

Import Checkout.

Lemma findById_id (db : Product.Collection) (id : string) (p : Product.t) :
  Product.findById db id = Some p -> Product._id p = id.
Proof.
  induction db as [| p0 db IH]; simpl; [discriminate |].
  destruct (Product._id p0 =? id)%string eqn:Hid.
  - intros Hp. injection Hp as <-. apply String.eqb_eq. exact Hid.
  - exact IH.
Qed.

Lemma findById_save (db : Product.Collection) (p' : Product.t)
  (id : string) :
  Product.findById (Product.save db p') id
  = if (Product._id p' =? id)%string
    then match Product.findById db id with
         | Some _ => Some p'
         | None => None
         end
    else Product.findById db id.
Proof.
  induction db as [| p0 db IH]; simpl.
  - destruct (Product._id p' =? id)%string; reflexivity.
  - destruct (Product._id p0 =? Product._id p')%string eqn:H0; simpl.
    + apply String.eqb_eq in H0. rewrite H0.
      destruct (Product._id p' =? id)%string; reflexivity.
    + destruct (Product._id p0 =? id)%string eqn:H1.
      * apply String.eqb_eq in H1. subst id.
        rewrite String.eqb_sym, H0. reflexivity.
      * exact IH.
Qed.

Lemma updateStock_keeps (p : Product.t) (qty : Z) (operation : string) :
  Product._id (fst (Product.updateStock p qty operation)) = Product._id p
  /\ Product.trackQuantity
       (Product.inventory (fst (Product.updateStock p qty operation)))
     = Product.trackQuantity (Product.inventory p).
Proof.
  unfold Product.updateStock.
  destruct (Product.trackQuantity (Product.inventory p)) eqn:Htrack; simpl;
    [| auto].
  destruct (String.eqb operation "decrease");
    [| destruct (String.eqb operation "increase")];
    simpl; destruct (_ <=? _); simpl; auto.
Qed.

(** One product through one turn of a stock loop, for either direction. *)
Lemma stock_turn (db : Product.Collection) (lineProduct : string)
  (qty : Z) (operation : string) (id : string) (p : Product.t) :
  Product.findById db id = Some p ->
  exists p' : Product.t,
    Product.findById
      (match Product.findById db lineProduct with
       | Some p0 =>
           if Product.trackQuantity (Product.inventory p0)
           then Product.save db (fst (Product.updateStock p0 qty operation))
           else db
       | None => db
       end) id
    = Some p'
    /\ Product.trackQuantity (Product.inventory p')
       = Product.trackQuantity (Product.inventory p)
    /\ stock p'
       = if Product.trackQuantity (Product.inventory p)
            && (lineProduct =? id)%string
         then stock (fst (Product.updateStock p qty operation))
         else stock p.
Proof.
  intros Hp.
  destruct (Product.findById db lineProduct) as [p0 |] eqn:Hp0.
  2: { exists p. rewrite Hp. repeat split.
       destruct (lineProduct =? id)%string eqn:Hid;
         [| rewrite andb_false_r; reflexivity].
       apply String.eqb_eq in Hid. subst. rewrite Hp in Hp0.
       discriminate Hp0. }
  pose proof (findById_id _ _ _ Hp0) as Hid0.
  destruct (lineProduct =? id)%string eqn:Hid.
  - apply String.eqb_eq in Hid. subst id. rewrite Hp in Hp0.
    injection Hp0 as <-.
    destruct (Product.trackQuantity (Product.inventory p)) eqn:Htrack.
    + exists (fst (Product.updateStock p qty operation)).
      rewrite findById_save.
      destruct (updateStock_keeps p qty operation) as [Hkeep Htr].
      rewrite Hkeep, Hid0, String.eqb_refl, Hp, Htr. auto.
    + exists p. rewrite Hp. auto.
  - exists p. rewrite andb_false_r.
    destruct (Product.trackQuantity (Product.inventory p0)).
    + rewrite findById_save.
      destruct (updateStock_keeps p0 qty operation) as [Hkeep _].
      rewrite Hkeep, Hid0, Hid, Hp. auto.
    + rewrite Hp. auto.
Qed.

Lemma decrementStock_turn (db : Product.Collection) (item : Cart.Item)
  (id : string) (p : Product.t) :
  Product.findById db id = Some p ->
  exists p' : Product.t,
    Product.findById (decrementStock db item) id = Some p'
    /\ Product.trackQuantity (Product.inventory p')
       = Product.trackQuantity (Product.inventory p)
    /\ stock p'
       = if Product.trackQuantity (Product.inventory p)
            && (Cart.product item =? id)%string
         then Z.max 0 (stock p - Cart.quantity item)
         else stock p.
Proof.
  intros Hp.
  destruct (stock_turn db (Cart.product item) (Cart.quantity item)
              "decrease" id p Hp) as (p' & Hfind & Htrack & Hstock).
  exists p'. split; [| split; [exact Htrack |]].
  - rewrite <- Hfind. unfold decrementStock, decremented.
    destruct (Product.findById db (Cart.product item)) as [p0 |];
      [| reflexivity].
    destruct (Product.trackQuantity (Product.inventory p0)); reflexivity.
  - rewrite Hstock.
    destruct (Product.trackQuantity (Product.inventory p)) eqn:Htr;
      [| reflexivity].
    simpl. destruct (Cart.product item =? id)%string; [| reflexivity].
    apply decrease_quantity. exact Htr.
Qed.

Lemma restoreStock_turn (db : Product.Collection) (item : Order.Item)
  (id : string) (p : Product.t) :
  Product.findById db id = Some p ->
  exists p' : Product.t,
    Product.findById (restoreStock db item) id = Some p'
    /\ Product.trackQuantity (Product.inventory p')
       = Product.trackQuantity (Product.inventory p)
    /\ stock p'
       = if Product.trackQuantity (Product.inventory p)
            && (Order.product item =? id)%string
         then stock p + Order.quantity item
         else stock p.
Proof.
  intros Hp.
  destruct (stock_turn db (Order.product item) (Order.quantity item)
              "increase" id p Hp) as (p' & Hfind & Htrack & Hstock).
  exists p'. split; [exact Hfind | split; [exact Htrack |]].
  rewrite Hstock.
  destruct (Product.trackQuantity (Product.inventory p)) eqn:Htr;
    [| reflexivity].
  simpl. destruct (Order.product item =? id)%string; [| reflexivity].
  apply increase_quantity. exact Htr.
Qed.

Lemma decrementStock_loop (l : list Cart.Item) (id : string) :
  forall (db : Product.Collection) (p : Product.t),
    Product.findById db id = Some p ->
    exists p' : Product.t,
      Product.findById (fold_left decrementStock l db) id = Some p'
      /\ Product.trackQuantity (Product.inventory p')
         = Product.trackQuantity (Product.inventory p)
      /\ stock p'
         = if Product.trackQuantity (Product.inventory p)
           then takenOff id l (stock p) else stock p.
Proof.
  induction l as [| item l IH]; intros db p Hp; simpl.
  - exists p. repeat split; auto.
    destruct (Product.trackQuantity (Product.inventory p)); reflexivity.
  - destruct (decrementStock_turn db item id p Hp)
      as (p1 & Hp1 & Htrack1 & Hstock1).
    destruct (IH _ _ Hp1) as (p2 & Hp2 & Htrack2 & Hstock2).
    exists p2. split; [exact Hp2 |]. split; [congruence |].
    rewrite Hstock2, Htrack1, Hstock1. unfold takenOff. simpl.
    destruct (Product.trackQuantity (Product.inventory p)); simpl;
      reflexivity.
Qed.

Lemma restoreStock_loop (l : list Order.Item) (id : string) :
  forall (db : Product.Collection) (p : Product.t),
    Product.findById db id = Some p ->
    exists p' : Product.t,
      Product.findById (fold_left restoreStock l db) id = Some p'
      /\ Product.trackQuantity (Product.inventory p')
         = Product.trackQuantity (Product.inventory p)
      /\ stock p'
         = if Product.trackQuantity (Product.inventory p)
           then stock p + restored id l else stock p.
Proof.
  induction l as [| item l IH]; intros db p Hp; simpl.
  - exists p. repeat split; auto.
    destruct (Product.trackQuantity (Product.inventory p)); lia.
  - destruct (restoreStock_turn db item id p Hp)
      as (p1 & Hp1 & Htrack1 & Hstock1).
    destruct (IH _ _ Hp1) as (p2 & Hp2 & Htrack2 & Hstock2).
    exists p2. split; [exact Hp2 |]. split; [congruence |].
    rewrite Hstock2, Htrack1, Hstock1.
    destruct (Product.trackQuantity (Product.inventory p)); simpl;
      [| reflexivity].
    destruct (Order.product item =? id)%string; lia.
Qed.

Lemma takenOff_exact (id : string) (l : list Cart.Item) :
  forall start : Z,
    Forall (fun it => 0 <= Cart.quantity it) l ->
    demand id l <= start ->
    takenOff id l start = start - demand id l.
Proof.
  induction l as [| item l IH]; intros start Hq Hdemand; simpl in *.
  - unfold takenOff. simpl. lia.
  - inversion Hq as [| x l' Hx Hl]; subst.
    assert (Hrest : 0 <= demand id l).
    { clear - Hl. induction Hl as [| y l Hy _ IH]; simpl; [lia |].
      destruct (Cart.product y =? id)%string; lia. }
    unfold takenOff in *. simpl.
    destruct (Cart.product item =? id)%string.
    + rewrite IH by (auto; lia). lia.
    + rewrite IH by (auto; lia). lia.
Qed.

(** X18: the inventory loop of [createOrder] leaves, for every product in
    the collection that tracks stock, the quantity obtained by taking the
    cart lines of that product off the starting stock one after the
    other, each step floored at zero; a product that does not track stock
    keeps its quantity; and when the lines have quantities of at least
    zero and ask together for no more than the stock, what is left is the
    stock less their sum. *)
Theorem inventory_loop_takes_off (db : Product.Collection)
  (l : list Cart.Item) (id : string) (p : Product.t) :
  Product.findById db id = Some p ->
  stockIn (fold_left decrementStock l db) id
  = Some (if Product.trackQuantity (Product.inventory p)
          then takenOff id l (stock p) else stock p)
  /\ (Forall (fun it => 0 <= Cart.quantity it) l ->
      demand id l <= stock p ->
      takenOff id l (stock p) = stock p - demand id l).
Proof.
  intros Hp. split.
  - destruct (decrementStock_loop l id db p Hp) as (p' & Hp' & _ & Hstock).
    unfold stockIn. rewrite Hp'. simpl. rewrite Hstock. reflexivity.
  - intros Hq Hdemand. apply takenOff_exact; assumption.
Qed.

Lemma inventory_loop_takes_off_witness :
  stockIn (fold_left decrementStock (Cart.items cartB) catalog) "p1"
  = Some 7.
Proof.
  apply (inventory_loop_takes_off catalog (Cart.items cartB) "p1" widget).
  reflexivity.
Defined.

(** X19: cancelling an order gives back to every product of the
    collection the quantities of the order's lines of that product: a
    product that tracks stock ends with its stock plus their sum,
    whatever the stock was, and a product that does not track stock keeps
    its quantity. *)
Theorem cancelOrder_restores_lines (later : Z) (o : Order.t)
  (db : Product.Collection) (id : string) (p : Product.t) :
  Order.canBeCancelled o = true ->
  Product.findById db id = Some p ->
  exists (o' : Order.t) (db' : Product.Collection),
    cancelOrder later o db = Some (o', db')
    /\ Order.status o' = Order.cancelled
    /\ stockIn db' id
       = Some (if Product.trackQuantity (Product.inventory p)
               then stock p + restored id (Order.items o) else stock p).
Proof.
  intros Hcancellable Hp. unfold cancelOrder. rewrite Hcancellable. simpl.
  do 2 eexists. split; [reflexivity |]. split; [reflexivity |].
  destruct (restoreStock_loop (Order.items o) id db p Hp)
    as (p' & Hp' & _ & Hstock).
  unfold stockIn. rewrite Hp'. simpl. rewrite Hstock. reflexivity.
Qed.

Lemma cancelOrder_restores_lines_witness :
  exists (o' : Order.t) (db' : Product.Collection),
    cancelOrder 6000 pendingOrder catalog = Some (o', db')
    /\ Order.status o' = Order.cancelled
    /\ stockIn db' "p1" = Some 13.
Proof.
  exact (cancelOrder_restores_lines 6000 pendingOrder catalog "p1" widget
           eq_refl eq_refl).
Defined.

End StockThroughCheckout.

(** ** Cancelling an order *)
Section Cancellation.

Import Checkout.

(** X20: [cancelOrder] refuses exactly the orders that are neither pending
    nor confirmed, and then restores no stock; an order it cancels gets
    the status cancelled and the cancellation instant, keeps its lines and
    totals, can be neither cancelled again (so no stock is restored twice)
    nor returned. *)
Theorem cancelOrder_once (now later : Z) (o : Order.t)
  (db : Product.Collection) :
  match cancelOrder now o db with
  | None =>
      Order.status o <> Order.pending /\ Order.status o <> Order.confirmed
  | Some (o', db') =>
      (Order.status o = Order.pending \/ Order.status o = Order.confirmed)
      /\ Order.status o' = Order.cancelled
      /\ Order.cancelledAt o' = Some now
      /\ Order.items o' = Order.items o
      /\ Order.total o' = Order.total o
      /\ db' = fold_left restoreStock (Order.items o) db
      /\ cancelOrder later o' db' = None
      /\ Order.canBeReturned later o' = Some false
  end.
Proof.
  unfold cancelOrder, Order.canBeCancelled.
  destruct (Order.status o) eqn:Hstatus; simpl;
    repeat split; auto; discriminate.
Qed.

End Cancellation.

(** ** Stock under interleaved checkouts *)
Section StockNeverNegative.

Import Checkout.







End StockNeverNegative.

(** ** Wishlist *)
Section WishlistMembership.

Import Wishlist.

Lemma isProduct_other (p p' : string) (it : Item) :
  p <> p' -> isProduct p it = true -> isProduct p' it = false.
Proof.
  unfold isProduct. intros Hother Hp. apply String.eqb_eq in Hp.
  apply String.eqb_neq. congruence.
Qed.

Lemma existsb_update_first (f g : Item -> bool) (h : Item -> Item)
  (l : list Item) :
  (forall x, g (h x) = g x) ->
  existsb g (update_first f h l) = existsb g l.
Proof.
  intros Hgh. induction l as [| x l IH]; simpl; [reflexivity |].
  destruct (f x); simpl; [rewrite Hgh | rewrite IH]; reflexivity.
Qed.

Lemma count_update_first (f g : Item -> bool) (h : Item -> Item)
  (l : list Item) :
  (forall x, g (h x) = g x) ->
  length (filter g (update_first f h l)) = length (filter g l).
Proof.
  intros Hgh. induction l as [| x l IH]; simpl; [reflexivity |].
  destruct (f x); simpl.
  - rewrite Hgh. destruct (g x); reflexivity.
  - destruct (g x); simpl; rewrite IH; reflexivity.
Qed.

Lemma existsb_filter_out (p p' : string) (l : list Item) :
  existsb (isProduct p')
    (filter (fun it => negb (isProduct p it)) l)
  = if (p =? p')%string then false else existsb (isProduct p') l.
Proof.
  induction l as [| x l IH]; simpl.
  - destruct (p =? p')%string; reflexivity.
  - destruct (isProduct p x) eqn:Hx; simpl.
    + rewrite IH. destruct (p =? p')%string eqn:Hp; [reflexivity |].
      apply String.eqb_neq in Hp.
      rewrite (isProduct_other p p' x Hp Hx). reflexivity.
    + rewrite IH. destruct (p =? p')%string eqn:Hp; [| reflexivity].
      apply String.eqb_eq in Hp. subst p'. rewrite Hx. reflexivity.
Qed.

Lemma existsb_false_count (f : Item -> bool) (l : list Item) :
  existsb f l = false -> length (filter f l) = 0%nat.
Proof.
  induction l as [| x l IH]; simpl; [reflexivity |].
  destruct (f x); simpl; [discriminate | exact IH].
Qed.

(** X23: a wishlist lists a product after [addItem] and no longer after
    [removeItem]; either operation leaves the membership of every other
    product as it was; [addItem] on a listed product rewrites its entry
    instead of adding one, so the number of entries of a product never
    grows beyond one unless it already was; a cleared wishlist lists
    nothing. *)
Theorem wishlist_membership (now : Z) (p p' : string)
  (n pr : option string) (w : t) :
  hasItem p (addItem now p n pr w) = true
  /\ hasItem p (removeItem now p w) = false
  /\ hasItem p' (clear now w) = false
  /\ (p <> p' ->
      hasItem p' (addItem now p n pr w) = hasItem p' w
      /\ hasItem p' (removeItem now p w) = hasItem p' w)
  /\ length (filter (isProduct p') (items (addItem now p n pr w)))
     = (if (p =? p')%string
        then Nat.max 1 (length (filter (isProduct p') (items w)))
        else length (filter (isProduct p') (items w))).
Proof.
  unfold hasItem, addItem, removeItem, clear, save. cbn [items].
  split; [| split; [| split; [reflexivity | split]]].
  - destruct (existsb (isProduct p) (items w)) eqn:Hlisted.
    + rewrite existsb_update_first by reflexivity. exact Hlisted.
    + rewrite existsb_app. simpl. unfold isProduct at 2. simpl.
      rewrite String.eqb_refl. apply orb_true_r.
  - rewrite existsb_filter_out, String.eqb_refl. reflexivity.
  - intros Hother. split.
    + destruct (existsb (isProduct p) (items w)).
      * apply existsb_update_first. reflexivity.
      * rewrite existsb_app. simpl. unfold isProduct at 2. simpl.
        apply String.eqb_neq in Hother. rewrite Hother. simpl.
        apply orb_false_r.
    + rewrite existsb_filter_out.
      apply String.eqb_neq in Hother. rewrite Hother. reflexivity.
  - destruct (existsb (isProduct p) (items w)) eqn:Hlisted.
    + rewrite count_update_first by reflexivity.
      destruct (p =? p')%string eqn:Hp; [| reflexivity].
      apply String.eqb_eq in Hp. subst p'.
      destruct (filter (isProduct p) (items w)) eqn:Hf; simpl; [| lia].
      exfalso. clear - Hlisted Hf.
      induction (items w) as [| x l IH]; simpl in *; [discriminate |].
      destruct (isProduct p x); [discriminate Hf | auto].
    + rewrite filter_app, length_app. simpl. unfold isProduct at 2. simpl.
      destruct (p =? p')%string eqn:Hp; simpl.
      * apply String.eqb_eq in Hp. subst p'.
        rewrite (existsb_false_count _ _ Hlisted). reflexivity.
      * lia.
Qed.

Lemma hasItem_removeItem (now : Z) (p p' : string) (w : t) :
  hasItem p' (removeItem now p w)
  = if (p =? p')%string then false else hasItem p' w.
Proof. unfold hasItem, removeItem, save. apply existsb_filter_out. Qed.

(** X24: [moveWishlistItemToCart] answers 404 when the user has no
    wishlist or the product is not on it; otherwise the product leaves
    the wishlist, the other products stay on it, and the cart (a new one
    when the user had none) holds the requested units more of the
    product, one unit when the request names no quantity, whichever line
    takes them. *)
Theorem moveWishlistItemToCart_moves (db : Product.Collection) (now : Z)
  (u p : string) (qty : option Z) (v : option Cart.Variant)
  (wishlist : option t) (cart : option Cart.t) :
  match moveWishlistItemToCart db now u p qty v wishlist cart with
  | WishlistNotFound => wishlist = None
  | ItemNotInWishlist =>
      exists w : t, wishlist = Some w /\ hasItem p w = false
  | Moved w' cart' =>
      exists w : t,
        wishlist = Some w
        /\ hasItem p w = true
        /\ hasItem p w' = false
        /\ (forall p' : string, p <> p' -> hasItem p' w' = hasItem p' w)
        /\ demand p (Cart.items cart')
           = demand p
               (Cart.items
                  (match cart with
                   | Some c => c
                   | None => Cart.create u now
                   end))
             + Cart.or_else qty 1
  end.
Proof.
  unfold moveWishlistItemToCart, moveToCart.
  destruct wishlist as [w |]; [| reflexivity].
  destruct (find (isProduct p) (items w)) as [item |] eqn:Hfind.
  - exists w. split; [reflexivity |].
    assert (Hlisted : hasItem p w = true).
    { unfold hasItem. apply existsb_exists. exists item.
      apply find_some in Hfind. exact Hfind. }
    split; [exact Hlisted |].
    split; [rewrite hasItem_removeItem, String.eqb_refl; reflexivity |].
    split.
    + intros p' Hother. rewrite hasItem_removeItem.
      apply String.eqb_neq in Hother. rewrite Hother. reflexivity.
    + apply demand_addItem.
  - exists w. split; [reflexivity |].
    unfold hasItem.
    destruct (existsb (isProduct p) (items w)) eqn:Hlisted; [| reflexivity].
    apply existsb_exists in Hlisted. destruct Hlisted as (x & Hin & Hx).
    rewrite (find_none _ _ Hfind x Hin) in Hx. discriminate Hx.
Qed.

End WishlistMembership.
